(** * maprobe: probe scheduler, aggregation engine and metric shippers

    A shallow embedding of [config.go] and of the orchestration file of the
    maprobe agent (the file holding [Run], [runProbes], [runAggregates], the
    reducers and the shipping workers), followed by the properties checked
    against the specification.

    Conventions of the embedding
    - [int64], [int] and [time.Duration] are integers in [Z]; a duration
      counts nanoseconds.  No arithmetic of the modelled code can leave the
      64-bit range, except the float conversions and the seconds of
      [time.Unix], which are written out.
    - [time.Time] is an instant, counted in nanoseconds since the Unix epoch;
      [time.Unix] goes through the seconds that [Time] stores in an [int64],
      with their wrap-around.
    - [float64] metric values are primitive binary64 floats.
    - Go strings are [string]; a slice is a [list] (order preserved).
    - A pointer that may be nil is an [option].
    - What a function logs or sends on a channel is returned as a list, in
      program order. *)

From Stdlib Require Import ZArith Lia List Bool.
From Stdlib Require Import PrimFloat Uint63 FloatClass.
From Stdlib Require FloatAxioms FloatOps SpecFloat.
From stdpp Require Import gmap strings list.

Local Open Scope Z_scope.

(* ===================================================================== *)
(** * Part I.  The embedding                                              *)
(* ===================================================================== *)

(** ** Package [time] *)

Module time.

Definition Duration := Z.
Definition Time := Z.

Definition Nanosecond : Duration := 1.
Definition Second : Duration := 1000000000 * Nanosecond.
Definition Minute : Duration := 60 * Second.

(** The seconds from year 1 to the Unix epoch: a [Time] stores the seconds
    since year 1 in an [int64]. *)
Definition unixToInternal : Z := 62135596800.

(** The bounds of [int64], and the value that 64-bit two's complement
    arithmetic leaves. *)
Definition minInt64 : Z := - 2 ^ 63.
Definition maxInt64 : Z := 2 ^ 63 - 1.

Definition wrap64 (z : Z) : Z := (z + 2 ^ 63) mod 2 ^ 64 - 2 ^ 63.

(** [time.Unix(sec, nsec)]: whole seconds of [nsec] are carried into [sec],
    and [sec + unixToInternal] is computed in [int64]; the instant is the one
    that the stored seconds and nanoseconds denote. *)
Definition Unix (sec nsec : Z) : Time :=
  (wrap64 (sec + nsec / Second + unixToInternal) - unixToInternal) * Second
  + nsec mod Second.

(** [t.Add(d)] *)
Definition Add (t : Time) (d : Duration) : Time := t + d.

(** [t.After(u)] *)
Definition After (t u : Time) : bool := u <? t.

End time.

(** ** Conversions between [int64] and [float64]

    The timestamp accumulator of [runAggregates] is a [float64] that only
    ever holds [+0] or the conversion of an [int64]; such a float is an
    integer, and it is represented here by that integer.  [float64(i)] rounds
    to 53 significant bits, ties to even. *)

Definition float64_of_int64 (i : Z) : Z :=
  let a := Z.abs i in
  if a <? 2 ^ 53 then i
  else
    let e := Z.log2 a - 52 in
    let q := a / 2 ^ e in
    let r := a mod 2 ^ e in
    let half := 2 ^ (e - 1) in
    let q' := if r <? half then q
              else if half <? r then q + 1
              else if Z.even q then q else q + 1 in
    Z.sgn i * (q' * 2 ^ e).

(** [int64(f)] for an integral [f]; out of range the result is the
    "integer indefinite" value of the amd64 conversion. *)
Definition int64_of_float64 (f : Z) : Z :=
  if (- 2 ^ 63 <=? f) && (f <? 2 ^ 63) then f else - 2 ^ 63.

(** ** Package [math] *)

Module math.

Local Open Scope float_scope.

Definition IsNaN (f : float) : bool := negb (f =? f).

Definition IsInf (f : float) (sign : Z) : bool :=
  ((0 <=? sign)%Z && (f =? infinity)) || ((sign <=? 0)%Z && (f =? neg_infinity)).

Definition Signbit (f : float) : bool :=
  match classify f with
  | NNormal | NSubn | NZero | NInf => true
  | _ => false
  end.

(** [math.Min(x, y)], with its special cases. *)
Definition Min (x y : float) : float :=
  if IsInf x (-1) || IsInf y (-1) then neg_infinity
  else if IsNaN x || IsNaN y then nan
  else if (x =? 0) && (x =? y) then (if Signbit x then x else y)
  else if x <? y then x else y.

(** [math.Max(x, y)], with its special cases. *)
Definition Max (x y : float) : float :=
  if IsInf x 1 || IsInf y 1 then infinity
  else if IsNaN x || IsNaN y then nan
  else if (x =? 0) && (x =? y) then (if Signbit x then y else x)
  else if y <? x then x else y.

(** [math.Max] on the integral floats of the timestamp accumulator. *)
Definition MaxIntegral (x y : Z) : Z := Z.max x y.

End math.

(** ** Tunables (package-level variables) *)

Definition MaxConcurrency : Z := 100.
Definition MaxClientConcurrency : Z := 5.
Definition PostMetricBufferLength : nat := 100.
Definition ProbeInterval : time.Duration := 60 * time.Second.
Definition mackerelRetryInterval : time.Duration := 10 * time.Second.
Definition metricTimeMargin : time.Duration := -3 * time.Minute.

(** ** Reducers *)

Module Reducers.

Local Open Scope float_scope.

(** [float64(len(values))] *)
Definition float64_of_len (values : list float) : float :=
  of_uint63 (Uint63.of_Z (Z.of_nat (length values))).

(** Each reducer has a named result [value], which starts at the zero
    value of [float64]. *)

Definition sum (values : list float) : float :=
  fold_left (fun value v => value + v) values 0.

Definition min (values : list float) : float :=
  fold_left (fun value v => math.Min v value) values 0.

Definition max (values : list float) : float :=
  fold_left (fun value v => math.Max v value) values 0.

Definition count (values : list float) : float := float64_of_len values.

Definition avg (values : list float) : float := sum values / count values.

End Reducers.

(** The least and the greatest element of a non-empty list, seeded with its
    first element: what the specification asks of [min] and [max]. *)
Definition true_min (values : list float) : option float :=
  match values with
  | [] => None
  | v :: rest => Some (fold_left (fun value w => math.Min w value) rest v)
  end.

Definition true_max (values : list float) : option float :=
  match values with
  | [] => None
  | v :: rest => Some (fold_left (fun value w => math.Max w value) rest v)
  end.

(** ** Log lines

    A log line is kept as its level and message, with the arguments that the
    properties below talk about. *)

Inductive LogLine :=
| ErrorCannotGenerate (variant hostID hostName err : string)
| WarnProbeOnlyDeprecated
| WarnFuncNotAvailable (func name : string)
| DebugCheckingNewConfig
| WarnLoadFailed (err : string)
| WarnStillUsingCurrentConfig
| InfoConfigReloaded
| DebugConfigDump.

(** ** Collaborators

    Types and functions that the two files use and that are declared
    elsewhere: the four probe configurations with their [GenerateProbe]
    methods, the Mackerel host and client, [reflect.DeepEqual] on the opaque
    probe configurations, [strings.ToLower], and the host metric with its
    [HostMetricValue] method. *)

Class Collaborators := {
  PingProbeConfig : Type;
  TCPProbeConfig : Type;
  HTTPProbeConfig : Type;
  CommandProbeConfig : Type;
  Host : Type;
  Host_ID : Host -> string;
  Host_Name : Host -> string;
  Client : Type;
  Probe : Type;
  Ping_GenerateProbe : PingProbeConfig -> Host -> Probe + string;
  TCP_GenerateProbe : TCPProbeConfig -> Host -> Probe + string;
  HTTP_GenerateProbe : HTTPProbeConfig -> Host -> Probe + string;
  Command_GenerateProbe : CommandProbeConfig -> Host -> Client -> Probe + string;
  Ping_DeepEqual : PingProbeConfig -> PingProbeConfig -> bool;
  TCP_DeepEqual : TCPProbeConfig -> TCPProbeConfig -> bool;
  HTTP_DeepEqual : HTTPProbeConfig -> HTTPProbeConfig -> bool;
  Command_DeepEqual : CommandProbeConfig -> CommandProbeConfig -> bool;
  ToLower : string -> string;
  HostMetric : Type;
  HostMetricValue : Type;
  HostMetric_HostMetricValue : HostMetric -> HostMetricValue
}.

(** ** The configuration model ([config.go]) *)

Record OutputConfig := {
  oc_Func : string;
  oc_Name : string;
  oc_calc : option (list float -> float)
}.

Record MetricConfig := {
  mc_Name : string;
  mc_Outputs : list OutputConfig
}.

Record AggregateDefinition := {
  ad_Service : string;
  ad_Role : string;
  ad_Roles : list string;
  ad_Statuses : list string;
  ad_Metrics : list MetricConfig
}.

Section ConfigModel.

Context `{Collaborators}.

Record ProbeDefinition := {
  pd_Service : string;
  pd_Role : string;
  pd_Roles : list string;
  pd_Statuses : list string;
  pd_Ping : option PingProbeConfig;
  pd_TCP : option TCPProbeConfig;
  pd_HTTP : option HTTPProbeConfig;
  pd_Command : option CommandProbeConfig
}.

Record Config := {
  location : string;
  APIKey : string;
  Probes : list ProbeDefinition;
  PostProbedMetrics : bool;
  Aggregates : list AggregateDefinition;
  PostAggregatedMetrics : bool;
  ProbeOnly : option bool
}.

(** *** [GenerateProbes] *)

(** One [if cfg := pd.X; cfg != nil { ... }] block: [attempt] is [None] when
    the variant is not populated, and otherwise what its [GenerateProbe]
    returned. *)
Definition generateVariant (variant : string) (host : Host)
    (attempt : option (Probe + string))
    (st : list Probe * list LogLine) : list Probe * list LogLine :=
  let '(probes, logs) := st in
  match attempt with
  | None => (probes, logs)
  | Some (inr err) =>
      (probes, logs ++ [ErrorCannotGenerate variant (Host_ID host) (Host_Name host) err])
  | Some (inl p) => (probes ++ [p], logs)
  end.

Definition GenerateProbes (pd : ProbeDefinition) (host : Host) (client : Client)
    : list Probe * list LogLine :=
  let st := ([], []) in
  let st := generateVariant "ping" host
              (option_map (fun pingConfig => Ping_GenerateProbe pingConfig host) (pd_Ping pd)) st in
  let st := generateVariant "tcp" host
              (option_map (fun tcpConfig => TCP_GenerateProbe tcpConfig host) (pd_TCP pd)) st in
  let st := generateVariant "http" host
              (option_map (fun httpConfig => HTTP_GenerateProbe httpConfig host) (pd_HTTP pd)) st in
  let st := generateVariant "command" host
              (option_map (fun commandConfig => Command_GenerateProbe commandConfig host client)
                 (pd_Command pd)) st in
  st.

(** *** [initialize]: role -> roles *)

Definition initializeProbe (pd : ProbeDefinition) : ProbeDefinition :=
  if String.eqb (pd_Role pd) "" then pd
  else {| pd_Service := pd_Service pd; pd_Role := pd_Role pd;
          pd_Roles := pd_Roles pd ++ [pd_Role pd];
          pd_Statuses := pd_Statuses pd;
          pd_Ping := pd_Ping pd; pd_TCP := pd_TCP pd;
          pd_HTTP := pd_HTTP pd; pd_Command := pd_Command pd |}.

Definition initializeAggregate (ad : AggregateDefinition) : AggregateDefinition :=
  if String.eqb (ad_Role ad) "" then ad
  else {| ad_Service := ad_Service ad; ad_Role := ad_Role ad;
          ad_Roles := ad_Roles ad ++ [ad_Role ad];
          ad_Statuses := ad_Statuses ad; ad_Metrics := ad_Metrics ad |}.

Definition initialize (c : Config) : Config :=
  {| location := location c; APIKey := APIKey c;
     Probes := map initializeProbe (Probes c);
     PostProbedMetrics := PostProbedMetrics c;
     Aggregates := map initializeAggregate (Aggregates c);
     PostAggregatedMetrics := PostAggregatedMetrics c;
     ProbeOnly := ProbeOnly c |}.

(** *** [validate] *)

(** A [for] loop that updates each element in place and may log. *)
Fixpoint forEach {A : Type} (body : A -> A * list LogLine) (l : list A)
    : list A * list LogLine :=
  match l with
  | [] => ([], [])
  | x :: rest =>
      let '(x', logs) := body x in
      let '(rest', logs') := forEach body rest in
      (x' :: rest', logs ++ logs')
  end.

Definition bindCalc (oc : OutputConfig) (f : list float -> float) : OutputConfig :=
  {| oc_Func := oc_Func oc; oc_Name := oc_Name oc; oc_calc := Some f |}.

(** The [switch strings.ToLower(oc.Func)] of [validate]. *)
Definition validateOutput (mcName : string) (oc : OutputConfig)
    : OutputConfig * list LogLine :=
  let f := ToLower (oc_Func oc) in
  if String.eqb f "sum" then (bindCalc oc Reducers.sum, [])
  else if String.eqb f "min" then (bindCalc oc Reducers.min, [])
  else if String.eqb f "max" then (bindCalc oc Reducers.max, [])
  else if String.eqb f "avg" || String.eqb f "average" then (bindCalc oc Reducers.avg, [])
  else if String.eqb f "count" then (bindCalc oc Reducers.count, [])
  else (oc, [WarnFuncNotAvailable (oc_Func oc) mcName]).

Definition validateMetric (mc : MetricConfig) : MetricConfig * list LogLine :=
  let '(outputs, logs) := forEach (validateOutput (mc_Name mc)) (mc_Outputs mc) in
  ({| mc_Name := mc_Name mc; mc_Outputs := outputs |}, logs).

Definition validateAggregate (ag : AggregateDefinition)
    : AggregateDefinition * list LogLine :=
  let '(metrics, logs) := forEach validateMetric (ad_Metrics ag) in
  ({| ad_Service := ad_Service ag; ad_Role := ad_Role ag; ad_Roles := ad_Roles ag;
      ad_Statuses := ad_Statuses ag; ad_Metrics := metrics |}, logs).

(** [validate] returns the configuration as it leaves it, what it logged,
    and its error ([None] for [nil]). *)
Definition validate (c : Config) : Config * list LogLine * option string :=
  if String.eqb (APIKey c) "" then (c, [], Some "no API Key")
  else
    let '(postProbed, logs1) :=
      match ProbeOnly c with
      | Some o => (negb o, [WarnProbeOnlyDeprecated])
      | None => (PostProbedMetrics c, [])
      end in
    let '(aggregates, logs2) := forEach validateAggregate (Aggregates c) in
    ({| location := location c; APIKey := APIKey c; Probes := Probes c;
        PostProbedMetrics := postProbed;
        Aggregates := aggregates;
        PostAggregatedMetrics := PostAggregatedMetrics c;
        ProbeOnly := ProbeOnly c |},
     logs1 ++ logs2, None).

(** *** [LoadConfig] *)

(** What [LoadConfig] reads from outside: the environment variable, the bytes
    that [fetch] finds at a location, and [yaml.Unmarshal], which fills the
    exported fields of the configuration it is given. *)
Record Environment := {
  Getenv_MACKEREL_APIKEY : string;
  fetch : string -> list Byte.byte + string;
  yaml_Unmarshal : list Byte.byte -> Config -> Config + string
}.

(** The configuration and the error that [LoadConfig] returns. *)
Inductive Loaded :=
| LoadFailed (err : string)
| LoadInvalid (c : Config) (err : string)
| LoadOk (c : Config).

(** The [&Config{...}] literal of [LoadConfig]. *)
Definition initialConfig (env : Environment) (loc : string) : Config :=
  {| location := loc; APIKey := Getenv_MACKEREL_APIKEY env;
     Probes := []; PostProbedMetrics := true;
     Aggregates := []; PostAggregatedMetrics := true;
     ProbeOnly := None |}.

Definition LoadConfig (env : Environment) (loc : string) : Loaded * list LogLine :=
  let c := initialConfig env loc in
  match fetch env loc with
  | inr err => (LoadFailed ("load config failed: " ++ err), [])
  | inl b =>
      match yaml_Unmarshal env b c with
      | inr err => (LoadFailed err, [])
      | inl c =>
          let c := initialize c in
          match validate c with
          | (c, logs, Some err) => (LoadInvalid c err, logs)
          | (c, logs, None) => (LoadOk c, logs)
          end
      end
  end.

(** *** [reflect.DeepEqual] on configurations

    Strings and booleans compare by value, slices element by element,
    pointers through their targets, and two [func] values are deeply equal
    only when both are nil.  A nil slice and an empty slice are both the
    empty list here; [reflect.DeepEqual] tells them apart, but two loads of
    the same bytes agree on which of the two each slice is. *)

Definition DeepEqual_func {A : Type} (f g : option A) : bool :=
  match f, g with
  | None, None => true
  | _, _ => false
  end.

Definition DeepEqual_ptr {A : Type} (eq : A -> A -> bool) (p q : option A) : bool :=
  match p, q with
  | None, None => true
  | Some x, Some y => eq x y
  | _, _ => false
  end.

Fixpoint DeepEqual_slice {A : Type} (eq : A -> A -> bool) (l1 l2 : list A) : bool :=
  match l1, l2 with
  | [], [] => true
  | x :: r1, y :: r2 => eq x y && DeepEqual_slice eq r1 r2
  | _, _ => false
  end.

Definition DeepEqual_OutputConfig (a b : OutputConfig) : bool :=
  String.eqb (oc_Func a) (oc_Func b) && String.eqb (oc_Name a) (oc_Name b)
  && DeepEqual_func (oc_calc a) (oc_calc b).

Definition DeepEqual_MetricConfig (a b : MetricConfig) : bool :=
  String.eqb (mc_Name a) (mc_Name b)
  && DeepEqual_slice DeepEqual_OutputConfig (mc_Outputs a) (mc_Outputs b).

Definition DeepEqual_AggregateDefinition (a b : AggregateDefinition) : bool :=
  String.eqb (ad_Service a) (ad_Service b) && String.eqb (ad_Role a) (ad_Role b)
  && DeepEqual_slice String.eqb (ad_Roles a) (ad_Roles b)
  && DeepEqual_slice String.eqb (ad_Statuses a) (ad_Statuses b)
  && DeepEqual_slice DeepEqual_MetricConfig (ad_Metrics a) (ad_Metrics b).

Definition DeepEqual_ProbeDefinition (a b : ProbeDefinition) : bool :=
  String.eqb (pd_Service a) (pd_Service b) && String.eqb (pd_Role a) (pd_Role b)
  && DeepEqual_slice String.eqb (pd_Roles a) (pd_Roles b)
  && DeepEqual_slice String.eqb (pd_Statuses a) (pd_Statuses b)
  && DeepEqual_ptr Ping_DeepEqual (pd_Ping a) (pd_Ping b)
  && DeepEqual_ptr TCP_DeepEqual (pd_TCP a) (pd_TCP b)
  && DeepEqual_ptr HTTP_DeepEqual (pd_HTTP a) (pd_HTTP b)
  && DeepEqual_ptr Command_DeepEqual (pd_Command a) (pd_Command b).

Definition DeepEqual_Config (a b : Config) : bool :=
  String.eqb (location a) (location b) && String.eqb (APIKey a) (APIKey b)
  && DeepEqual_slice DeepEqual_ProbeDefinition (Probes a) (Probes b)
  && Bool.eqb (PostProbedMetrics a) (PostProbedMetrics b)
  && DeepEqual_slice DeepEqual_AggregateDefinition (Aggregates a) (Aggregates b)
  && Bool.eqb (PostAggregatedMetrics a) (PostAggregatedMetrics b)
  && DeepEqual_ptr Bool.eqb (ProbeOnly a) (ProbeOnly b).

(** *** The reload step of [Run]

    The tail of the loop body of [Run], from "checking a new config" on:
    [loaded] is what [LoadConfig(configPath)] returned on this tick.  The
    result is the configuration used by the next tick and what was logged. *)
Definition reloadConfig (conf : Config) (loaded : Loaded) : Config * list LogLine :=
  match loaded with
  | LoadFailed err | LoadInvalid _ err =>
      (conf, [DebugCheckingNewConfig; WarnLoadFailed err; WarnStillUsingCurrentConfig])
  | LoadOk newConf =>
      if negb (DeepEqual_Config conf newConf)
      then (newConf, [DebugCheckingNewConfig; InfoConfigReloaded; DebugConfigDump])
      else (conf, [DebugCheckingNewConfig])
  end.

End ConfigModel.

(** ** The Mackerel backend *)

Inductive AnyValue :=
| Float64Value (v : float)
| OtherValue.

(** [mackerel.MetricValue]; [Value] is an [interface{}]. *)
Record MetricValue := {
  mv_Name : string;
  mv_Time : Z;
  mv_Value : AnyValue
}.

(** [mackerel.LatestMetricValues], a map from host id to a map from metric
    name to a pointer.  A [range] over a Go map visits the entries in an
    order that the language leaves open: the outer map is the list of its
    entries in the order in which the loop visits them. *)
Abbreviation LatestMetricValues := (list (string * gmap string (option MetricValue))).

Record FindHostsParam := {
  fh_Service : string;
  fh_Roles : list string;
  fh_Statuses : list string
}.

Record ServiceMetric := {
  sm_Service : string;
  sm_Name : string;
  sm_Value : float;
  sm_Timestamp : time.Time
}.

Section Runners.

Context `{Collaborators}.

(** What the client answers: [client.FindHosts] and
    [fetchLatestMetricValues(client, hostIDs, metricNames)]. *)
Record Backend := {
  FindHosts : FindHostsParam -> list Host + string;
  fetchLatestMetricValues : list string -> list string -> LatestMetricValues + string
}.

(** *** [runProbes] *)

Inductive ProbeAction :=
| SleepFor (d : time.Duration)
| SpawnHostTask (host : Host).

Definition spawnInterval (hosts : list Host) : time.Duration :=
  let spawnInterval := Z.quot (Z.quot ProbeInterval (Z.of_nat (length hosts))) 2 in
  if time.Second <? spawnInterval then time.Second else spawnInterval.

(** The [for _, host := range hosts] loop: sleep, then start the host task. *)
Fixpoint spawnHostTasks (spawnInterval : time.Duration) (hosts : list Host)
    : list ProbeAction :=
  match hosts with
  | [] => []
  | host :: rest =>
      SleepFor spawnInterval :: SpawnHostTask host :: spawnHostTasks spawnInterval rest
  end.

Definition runProbes (backend : Backend) (pd : ProbeDefinition) : list ProbeAction :=
  match FindHosts backend {| fh_Service := pd_Service pd; fh_Roles := pd_Roles pd;
                             fh_Statuses := pd_Statuses pd |} with
  | inr _ => []
  | inl hosts =>
      if (length hosts =? 0)%nat then []
      else spawnHostTasks (spawnInterval hosts) hosts
  end.

(** *** [runAggregates] *)

(** The body of [for hostID, metrics := range latest]: the state is the
    [timestamp] accumulator and the [values] collected so far. *)
Definition scanLatest (now : time.Time) (name : string)
    (st : Z * list float) (entry : string * gmap string (option MetricValue))
    : Z * list float :=
  let '(timestamp, values) := st in
  match entry.2 !! name with
  | None => st
  | Some None => st
  | Some (Some _v) =>
      match mv_Value _v with
      | OtherValue => st
      | Float64Value v =>
          let ts := time.Unix (mv_Time _v) 0 in
          if time.After ts (time.Add now metricTimeMargin)
          then (math.MaxIntegral (float64_of_int64 (mv_Time _v)) timestamp, values ++ [v])
          else st
      end
  end.

(** The [switch strings.ToLower(output.Func)] of [runAggregates]; it has no
    [default], and [value] starts at 0. *)
Definition reduce (values : list float) (output : OutputConfig) : float :=
  let f := ToLower (oc_Func output) in
  if String.eqb f "sum" then Reducers.sum values
  else if String.eqb f "min" then Reducers.min values
  else if String.eqb f "max" then Reducers.max values
  else if String.eqb f "avg" || String.eqb f "average" then Reducers.avg values
  else if String.eqb f "count" then Reducers.count values
  else 0%float.

(** The body of [for _, mc := range ag.Metrics]: what it sends on [ch]. *)
Definition aggregateMetric (now : time.Time) (service : string)
    (latest : LatestMetricValues) (mc : MetricConfig) : list ServiceMetric :=
  let '(timestamp, values) := fold_left (scanLatest now (mc_Name mc)) latest (0, []) in
  if (length values =? 0)%nat then []
  else
    map (fun output =>
           {| sm_Service := service;
              sm_Name := oc_Name output;
              sm_Value := reduce values output;
              sm_Timestamp := time.Unix (int64_of_float64 timestamp) 0 |})
        (mc_Outputs mc).

(** [runAggregates]: the service metrics sent on [ch], in order; [now] is
    the reading of [time.Now()]. *)
Definition runAggregates (backend : Backend) (ag : AggregateDefinition)
    (now : time.Time) : list ServiceMetric :=
  match FindHosts backend {| fh_Service := ad_Service ag; fh_Roles := ad_Roles ag;
                             fh_Statuses := ad_Statuses ag |} with
  | inr _ => []
  | inl hosts =>
      if (length hosts =? 0)%nat then []
      else
        let hostIDs := map Host_ID hosts in
        let metricNames := map mc_Name (ad_Metrics ag) in
        match fetchLatestMetricValues backend hostIDs metricNames with
        | inr _ => []
        | inl latest => flat_map (aggregateMetric now (ad_Service ag) latest) (ad_Metrics ag)
        end
  end.

End Runners.

(** ** The shipping workers

    A worker is run against the sequence of [select] outcomes that its
    environment offers: which case fires on each pass of the loop and, should
    the pass reach the POST, whether the POST succeeds. *)

Inductive Select (M : Type) :=
| Received (m : M)
| ChannelClosed
| TickerFired.

Arguments Received {M} m.
Arguments ChannelClosed {M}.
Arguments TickerFired {M}.

Record Pass (M : Type) := {
  selected : Select M;
  postOk : bool
}.

Arguments selected {M} _.
Arguments postOk {M} _.

Inductive WorkerAction (V : Type) :=
| PostValues (mvs : list V) (ok : bool)
| SleepRetry (d : time.Duration)
| WgDone.

Arguments PostValues {V} mvs ok.
Arguments SleepRetry {V} d.
Arguments WgDone {V}.

(** What a worker did on a finite sequence of passes: its actions, the buffer
    it is left with, and whether it returned (otherwise it is blocked in
    [select], waiting for the next event). *)
Record WorkerRun (V : Type) := {
  actions : list (WorkerAction V);
  buffer : list V;
  returned : bool
}.

Arguments actions {V} _.
Arguments buffer {V} _.
Arguments returned {V} _.

Section Worker.

Context {M V : Type} (toValue : M -> V).

(** One pass of the [for run] loop of [postHostMetricWorker], from the buffer
    [mvs]: the buffer and [run] after the pass, and what the pass did. *)
Definition workerPass (mvs : list V) (p : Pass M)
    : list V * bool * list (WorkerAction V) :=
  let '(mvs, run, flush) :=
    match selected p with
    | Received m =>
        let mvs := mvs ++ [toValue m] in
        if (length mvs <? PostMetricBufferLength)%nat
        then (mvs, true, false)
        else (mvs, true, true)
    | ChannelClosed => (mvs, false, true)
    | TickerFired => (mvs, true, true)
    end in
  if negb flush then (mvs, run, [])
  else if (length mvs =? 0)%nat then (mvs, run, [])
  else if postOk p then ([], run, [PostValues mvs true])
  else (mvs, run, [PostValues mvs false; SleepRetry mackerelRetryInterval]).

(** What a pass appends to the buffer, and whether the loop goes on after
    it. *)
Definition received (p : Pass M) : list V :=
  match selected p with
  | Received m => [toValue m]
  | _ => []
  end.

Definition goesOn (p : Pass M) : bool :=
  match selected p with
  | ChannelClosed => false
  | _ => true
  end.

Fixpoint workerLoop (mvs : list V) (passes : list (Pass M)) : WorkerRun V :=
  match passes with
  | [] => {| actions := []; buffer := mvs; returned := false |}
  | p :: rest =>
      let '(mvs', run, acts) := workerPass mvs p in
      if run
      then
        let r := workerLoop mvs' rest in
        {| actions := acts ++ actions r; buffer := buffer r; returned := returned r |}
      else {| actions := acts ++ [WgDone]; buffer := mvs'; returned := true |}
  end.

End Worker.

Section Workers.

Context `{Collaborators}.

Definition postHostMetricWorker (passes : list (Pass HostMetric))
    : WorkerRun HostMetricValue :=
  workerLoop HostMetric_HostMetricValue [] passes.

(** [postServiceMetricWorker]: its body is [defer wg.Done()] and nothing
    else; it returns without a receive from [ch]. *)
Definition postServiceMetricWorker (passes : list (Pass ServiceMetric))
    : WorkerRun ServiceMetric :=
  {| actions := [WgDone]; buffer := []; returned := true |}.

End Workers.

(** The contract that the specification gives the service-metric shipper:
    that of the host-metric shipper, on service metrics. *)
Definition serviceShipperContract (passes : list (Pass ServiceMetric))
    : WorkerRun ServiceMetric :=
  workerLoop (fun m : ServiceMetric => m) [] passes.

(** ** Notions used to state the properties *)

(** The POST attempts among the actions of a worker, in order: the batch and
    whether the POST succeeded. *)
Fixpoint posts {V : Type} (acts : list (WorkerAction V)) : list (list V * bool) :=
  match acts with
  | [] => []
  | PostValues mvs ok :: rest => (mvs, ok) :: posts rest
  | _ :: rest => posts rest
  end.

(** The samples that the scan for [name] considers: the non-nil entries for
    [name] that hold a [float64], in the order of the scan. *)
Definition considered (name : string) (latest : LatestMetricValues) : list MetricValue :=
  flat_map (fun entry : string * gmap string (option MetricValue) =>
              match entry.2 !! name with
              | Some (Some s) =>
                  match mv_Value s with
                  | Float64Value _ => [s]
                  | OtherValue => []
                  end
              | _ => []
              end) latest.

(** A sample is fresh when the instant that [time.Unix] makes of its time is
    later than [now] minus three minutes. *)
Definition fresh (now : time.Time) (s : MetricValue) : bool :=
  now - 3 * time.Minute <? time.Unix (mv_Time s) 0.

Definition accepted (now : time.Time) (name : string) (latest : LatestMetricValues)
    : list MetricValue :=
  List.filter (fresh now) (considered name latest).

Definition sampleValue (s : MetricValue) : float :=
  match mv_Value s with
  | Float64Value v => v
  | OtherValue => 0%float
  end.

(** The greatest sample time of a list of samples (0 for the empty list,
    where it is not used). *)
Definition maxTime (samples : list MetricValue) : Z :=
  match samples with
  | [] => 0
  | s :: rest => fold_left (fun m s' => Z.max m (mv_Time s')) rest (mv_Time s)
  end.

(** The timestamp accumulator after a scan that accepted [samples]. *)
Definition scanTimestamp (samples : list MetricValue) (timestamp : Z) : Z :=
  fold_left (fun m s => math.MaxIntegral (float64_of_int64 (mv_Time s)) m) samples timestamp.

(** The reducer names that [validate] and [runAggregates] match. *)
Definition recognised (f : string) : bool :=
  String.eqb f "sum" || String.eqb f "min" || String.eqb f "max"
  || String.eqb f "avg" || String.eqb f "average" || String.eqb f "count".

(** The roles that the specification asks for after load. *)
Definition mergedRoles (role : string) (roles : list string) : list string :=
  roles ++ (if String.eqb role "" then [] else [role]).

(** A definition after load, against the same definition as unmarshalled:
    the legacy role is kept, the roles are the merged roles, and, when the
    list-form roles held no empty string, the role is among the roles exactly
    when it was set. *)
Definition rolesNormalized (role0 : string) (roles0 : list string)
    (role : string) (roles : list string) : Prop :=
  role = role0 /\
  roles = mergedRoles role0 roles0 /\
  (~ In ""%string roles0 -> (In role roles <-> role0 <> ""%string)).

Section Variants.

Context `{Collaborators}.

(** The populated variants of a probe definition, in the order ping, tcp,
    http, command, each with what its [GenerateProbe] returns. *)
Definition populated (pd : ProbeDefinition) (host : Host) (client : Client)
    : list (string * (Probe + string)) :=
  match pd_Ping pd with Some c => [("ping", Ping_GenerateProbe c host)] | None => [] end
  ++ match pd_TCP pd with Some c => [("tcp", TCP_GenerateProbe c host)] | None => [] end
  ++ match pd_HTTP pd with Some c => [("http", HTTP_GenerateProbe c host)] | None => [] end
  ++ match pd_Command pd with
     | Some c => [("command", Command_GenerateProbe c host client)]
     | None => []
     end.

Definition generatedProbe (r : string * (Probe + string)) : list Probe :=
  match r.2 with
  | inl p => [p]
  | inr _ => []
  end.

Definition generationError (host : Host) (r : string * (Probe + string)) : list LogLine :=
  match r.2 with
  | inl _ => []
  | inr err => [ErrorCannotGenerate r.1 (Host_ID host) (Host_Name host) err]
  end.

End Variants.

(** ** A concrete instance, for worked examples

    Probe configurations are target addresses, and generation fails on the
    empty address; a host is its id; [ToLower] is [strings.ToLower] on ASCII
    text. *)

Definition lowerAscii (a : Ascii.ascii) : Ascii.ascii :=
  let n := Ascii.nat_of_ascii a in
  if (65 <=? n)%nat && (n <=? 90)%nat then Ascii.ascii_of_nat (n + 32) else a.

Fixpoint lowerString (s : string) : string :=
  match s with
  | EmptyString => EmptyString
  | String a rest => String (lowerAscii a) (lowerString rest)
  end.

Definition generateByAddress (kind address host : string) : string + string :=
  if String.eqb address "" then inr "empty address"
  else inl (kind ++ " " ++ address ++ " for " ++ host)%string.

Definition exampleCollaborators : Collaborators := {|
  PingProbeConfig := string;
  TCPProbeConfig := string;
  HTTPProbeConfig := string;
  CommandProbeConfig := string;
  Host := string;
  Host_ID := fun h => h;
  Host_Name := fun h => h;
  Client := unit;
  Probe := string;
  Ping_GenerateProbe := generateByAddress "ping";
  TCP_GenerateProbe := generateByAddress "tcp";
  HTTP_GenerateProbe := generateByAddress "http";
  Command_GenerateProbe := fun c h _ => generateByAddress "command" c h;
  Ping_DeepEqual := String.eqb;
  TCP_DeepEqual := String.eqb;
  HTTP_DeepEqual := String.eqb;
  Command_DeepEqual := String.eqb;
  ToLower := lowerString;
  HostMetric := string;
  HostMetricValue := string;
  HostMetric_HostMetricValue := fun m => m
|}.

Section Examples.

#[local] Existing Instance exampleCollaborators.

(** The sample configuration shipped with the repository, as unmarshalled. *)
Definition sampleProbes : list ProbeDefinition := [
  {| pd_Service := "prod"; pd_Role := "EC2"; pd_Roles := [];
     pd_Statuses := ["working"; "standby"];
     pd_Ping := Some "{{ .ipAddresses.eth0 }}"; pd_TCP := None;
     pd_HTTP := None; pd_Command := None |};
  {| pd_Service := "prod"; pd_Role := "NLB"; pd_Roles := []; pd_Statuses := [];
     pd_Ping := None; pd_TCP := Some "{{ .customIdentifier }}";
     pd_HTTP := None; pd_Command := None |};
  {| pd_Service := "prod"; pd_Role := "ALB"; pd_Roles := []; pd_Statuses := [];
     pd_Ping := None; pd_TCP := None;
     pd_HTTP := Some "{{ .metadata.probe.url }}"; pd_Command := None |} ]%string.

Definition sampleAggregates : list AggregateDefinition := [
  {| ad_Service := "prod"; ad_Role := "web"; ad_Roles := []; ad_Statuses := [];
     ad_Metrics := [
       {| mc_Name := "custom.nginx.requests.requests";
          mc_Outputs := [
            {| oc_Func := "sum"; oc_Name := "custom.nginx.requests.sum_requests";
               oc_calc := None |};
            {| oc_Func := "avg"; oc_Name := "custom.nginx.requests.avg_requests";
               oc_calc := None |} ] |};
       {| mc_Name := "custom.nginx.connections.connections";
          mc_Outputs := [
            {| oc_Func := "avg"; oc_Name := "custom.nginx.connections.avg_connections";
               oc_calc := None |} ] |} ] |} ]%string.

(** An environment in which every location holds a document that
    unmarshals to the given probes and aggregates, with the key [DUMMY]. *)
Definition environmentOf (probes : list ProbeDefinition)
    (aggregates : list AggregateDefinition) : Environment :=
  {| Getenv_MACKEREL_APIKEY := "";
     fetch := fun _ => inl [];
     yaml_Unmarshal := fun _ c =>
       inl {| location := location c; APIKey := "DUMMY";
              Probes := probes;
              PostProbedMetrics := PostProbedMetrics c;
              Aggregates := aggregates;
              PostAggregatedMetrics := PostAggregatedMetrics c;
              ProbeOnly := ProbeOnly c |} |}.

Definition sampleEnvironment : Environment := environmentOf sampleProbes sampleAggregates.

(** The sample configuration after [LoadConfig]: roles merged, reducers
    bound. *)
Definition sampleLoaded : Config :=
  {| location := "maprobe.yaml"; APIKey := "DUMMY";
     Probes := [
       {| pd_Service := "prod"; pd_Role := "EC2"; pd_Roles := ["EC2"];
          pd_Statuses := ["working"; "standby"];
          pd_Ping := Some "{{ .ipAddresses.eth0 }}"; pd_TCP := None;
          pd_HTTP := None; pd_Command := None |};
       {| pd_Service := "prod"; pd_Role := "NLB"; pd_Roles := ["NLB"];
          pd_Statuses := [];
          pd_Ping := None; pd_TCP := Some "{{ .customIdentifier }}";
          pd_HTTP := None; pd_Command := None |};
       {| pd_Service := "prod"; pd_Role := "ALB"; pd_Roles := ["ALB"];
          pd_Statuses := [];
          pd_Ping := None; pd_TCP := None;
          pd_HTTP := Some "{{ .metadata.probe.url }}"; pd_Command := None |} ];
     PostProbedMetrics := true;
     Aggregates := [
       {| ad_Service := "prod"; ad_Role := "web"; ad_Roles := ["web"];
          ad_Statuses := [];
          ad_Metrics := [
            {| mc_Name := "custom.nginx.requests.requests";
               mc_Outputs := [
                 {| oc_Func := "sum"; oc_Name := "custom.nginx.requests.sum_requests";
                    oc_calc := Some Reducers.sum |};
                 {| oc_Func := "avg"; oc_Name := "custom.nginx.requests.avg_requests";
                    oc_calc := Some Reducers.avg |} ] |};
            {| mc_Name := "custom.nginx.connections.connections";
               mc_Outputs := [
                 {| oc_Func := "avg";
                    oc_Name := "custom.nginx.connections.avg_connections";
                    oc_calc := Some Reducers.avg |} ] |} ] |} ];
     PostAggregatedMetrics := true;
     ProbeOnly := None |}%string.

(** A definition without legacy role whose list-form roles hold an empty
    string. *)
Definition emptyRoleListed : ProbeDefinition :=
  {| pd_Service := "prod"; pd_Role := ""; pd_Roles := [""]; pd_Statuses := [];
     pd_Ping := Some "10.0.0.1"; pd_TCP := None; pd_HTTP := None;
     pd_Command := None |}%string.

(** A backend that finds the given hosts and holds the given latest
    values. *)
Definition backendOf (hosts : list Host) (latest : LatestMetricValues) : Backend :=
  {| FindHosts := fun _ => inl hosts;
     fetchLatestMetricValues := fun _ _ => inl latest |}.

Definition sampleAt (name : string) (t : Z) (v : float) : option MetricValue :=
  Some {| mv_Name := name; mv_Time := t; mv_Value := Float64Value v |}.

(** Three hosts reporting metric [m]; the sample of [h2] is five minutes
    older than the other two.  The clock reads one minute after the recent
    samples. *)
Definition clock : time.Time := time.Unix 1700000060 0.

Definition threeHosts : LatestMetricValues := [
  ("h1", {[ "m" := sampleAt "m" 1700000000 1 ]});
  ("h2", {[ "m" := sampleAt "m" 1699999700 2 ]});
  ("h3", {[ "m" := sampleAt "m" 1700000001 3 ]}) ]%string.

Definition sumAndAverage : MetricConfig :=
  {| mc_Name := "m";
     mc_Outputs := [ {| oc_Func := "sum"; oc_Name := "m_sum"; oc_calc := None |};
                     {| oc_Func := "avg"; oc_Name := "m_avg"; oc_calc := None |} ] |}%string.

(** An aggregate definition with an output whose [func] is not a reducer
    name. *)
Definition medianOutput : OutputConfig :=
  {| oc_Func := "Median"; oc_Name := "m_median"; oc_calc := None |}%string.

Definition medianAggregate : AggregateDefinition :=
  {| ad_Service := "prod"; ad_Role := ""; ad_Roles := ["web"]; ad_Statuses := [];
     ad_Metrics := [ {| mc_Name := "m"; mc_Outputs := [medianOutput] |} ] |}%string.

Definition medianConfig : Config :=
  {| location := "maprobe.yaml"; APIKey := "DUMMY"; Probes := [];
     PostProbedMetrics := true; Aggregates := [medianAggregate];
     PostAggregatedMetrics := true; ProbeOnly := None |}%string.

(** A sample from before the epoch, read by a clock that stands 100 seconds
    after the epoch; and a sample whose time is not a [float64], read by the
    clock above. *)
Definition beforeEpoch : LatestMetricValues := [
  ("h1", {[ "m" := sampleAt "m" (-5) 1 ]}) ]%string.

(** A sample stamped with the greatest [int64]. *)
Definition endOfTime : MetricValue :=
  {| mv_Name := "m"; mv_Time := time.maxInt64; mv_Value := Float64Value 1 |}.

Definition farFuture : LatestMetricValues := [
  ("h1", {[ "m" := Some endOfTime ]}) ]%string.

Definition beyondFloat : LatestMetricValues := [
  ("h1", {[ "m" := sampleAt "m" (2 ^ 53 + 1) 1 ]}) ]%string.

(** A document with the deprecated [probe_only: true] and an output whose
    [func] is not a reducer name. *)
Definition probeOnlyConfig : Config :=
  {| location := "maprobe.yaml"; APIKey := "DUMMY"; Probes := sampleProbes;
     PostProbedMetrics := true; Aggregates := [medianAggregate];
     PostAggregatedMetrics := true; ProbeOnly := Some true |}%string.

(** The sample configuration without its aggregates, after load. *)
Definition probesOnlyLoaded : Config :=
  {| location := "maprobe.yaml"; APIKey := "DUMMY";
     Probes := Probes sampleLoaded;
     PostProbedMetrics := true; Aggregates := [];
     PostAggregatedMetrics := true; ProbeOnly := None |}%string.

(** The aggregate definition of the three hosts, and the first metric it
    yields at [clock]. *)
Definition webAggregate : AggregateDefinition :=
  {| ad_Service := "prod"; ad_Role := ""; ad_Roles := ["web"]; ad_Statuses := [];
     ad_Metrics := [sumAndAverage] |}%string.

Definition webSum : ServiceMetric :=
  {| sm_Service := "prod"; sm_Name := "m_sum"; sm_Value := 4;
     sm_Timestamp := time.Unix 1700000001 0 |}%string.

(** A definition whose ping variant cannot be generated. *)
Definition pingFailing : ProbeDefinition :=
  {| pd_Service := "prod"; pd_Role := "web"; pd_Roles := []; pd_Statuses := [];
     pd_Ping := Some ""; pd_TCP := Some "10.0.0.1:11211"; pd_HTTP := None;
     pd_Command := Some "check.sh" |}%string.

End Examples.

(** ** Notions used to state further properties of the configuration *)

Section Warnings.

Context `{Collaborators}.

(** The warnings that the outputs of a metric configuration call for: one
    for each output whose lowercased [func] is not a reducer name, in the
    order of the outputs. *)
Definition outputWarnings (mc : MetricConfig) : list LogLine :=
  flat_map (fun oc =>
              if recognised (ToLower (oc_Func oc)) then []
              else [WarnFuncNotAvailable (oc_Func oc) (mc_Name mc)])
           (mc_Outputs mc).

Definition expectedWarnings (c : Config) : list LogLine :=
  match ProbeOnly c with
  | Some _ => [WarnProbeOnlyDeprecated]
  | None => []
  end
  ++ flat_map (fun ag => flat_map outputWarnings (ad_Metrics ag)) (Aggregates c).

(** No output of the configuration has a bound reducer. *)
Definition unbound (c : Config) : Prop :=
  forall ag mc oc,
    In ag (Aggregates c) -> In mc (ad_Metrics ag) -> In oc (mc_Outputs mc) ->
    oc_calc oc = None.

End Warnings.

(** ** Notions used to state further properties of the runners *)

Section RunnerNotions.

Context `{Collaborators}.

(** The time that a probe runner spends asleep, and the hosts it starts a
    task for, in order. *)
Fixpoint totalSleep (acts : list ProbeAction) : Z :=
  match acts with
  | [] => 0
  | SleepFor d :: rest => d + totalSleep rest
  | SpawnHostTask _ :: rest => totalSleep rest
  end.

Fixpoint spawned (acts : list ProbeAction) : list Host :=
  match acts with
  | [] => []
  | SleepFor _ :: rest => spawned rest
  | SpawnHostTask host :: rest => host :: spawned rest
  end.

End RunnerNotions.

(** What a service metric says apart from its value. *)
Definition stamp (sm : ServiceMetric) : string * string * time.Time :=
  (sm_Service sm, sm_Name sm, sm_Timestamp sm).

(** ** Notions used to state further properties of the shipper *)

(** The passes that a worker goes through: those up to and including the
    first one that selects the closed channel. *)
Fixpoint consumed {M : Type} (passes : list (Pass M)) : list (Pass M) :=
  match passes with
  | [] => []
  | p :: rest => if goesOn p then p :: consumed rest else [p]
  end.

(** The values of the batches whose POST succeeded, in order. *)
Definition delivered {V : Type} (acts : list (WorkerAction V)) : list V :=
  flat_map (fun a : list V * bool => if a.2 then a.1 else []) (posts acts).

(** ** [Run]

    The sequential skeleton of [Run]: which workers and runners it starts,
    what the reload step logs, and how it returns.  It is run against the
    outcome of the first [LoadConfig] and the sequence of wake-ups of its
    [select]: the context is done, or the ticker fired and [LoadConfig]
    returned [loaded].  The lines that [LoadConfig] itself logs are left
    out. *)

Section RunModel.

Context `{Collaborators}.

Inductive RunAction :=
| GoPostHostMetricWorker
| GoDumpHostMetricWorker
| GoPostServiceMetricWorker
| GoDumpServiceMetricWorker
| GoRunProbes (pd : ProbeDefinition)
| GoRunAggregates (ag : AggregateDefinition)
| WaitRunners
| Logged (line : LogLine)
| CloseChannels
| Return (err : option string).

Inductive Wake :=
| ContextDone
| Ticked (loaded : Loaded).

(** The two [if len(...) > 0] blocks before the loop. *)
Definition startWorkers (conf : Config) : list RunAction :=
  (if (0 <? length (Probes conf))%nat
   then if PostProbedMetrics conf then [GoPostHostMetricWorker] else [GoDumpHostMetricWorker]
   else [])
  ++ (if (0 <? length (Aggregates conf))%nat
      then if PostAggregatedMetrics conf
           then [GoPostServiceMetricWorker] else [GoDumpServiceMetricWorker]
      else []).

(** One round: a runner per definition, then [wg2.Wait()]. *)
Definition spawnRunners (conf : Config) : list RunAction :=
  map GoRunProbes (Probes conf) ++ map GoRunAggregates (Aggregates conf) ++ [WaitRunners].

(** The [for] loop; with no wake-up left the loop is blocked in [select].
    The deferred closing of the channels precedes the return. *)
Fixpoint runLoop (once : bool) (conf : Config) (wakes : list Wake) : list RunAction :=
  spawnRunners conf
  ++ (if once then [CloseChannels; Return None]
      else
        match wakes with
        | [] => []
        | ContextDone :: _ => [CloseChannels; Return None]
        | Ticked loaded :: rest =>
            let '(conf', lines) := reloadConfig conf loaded in
            map Logged lines ++ runLoop once conf' rest
        end).

Definition Run (initial : Loaded) (once : bool) (wakes : list Wake) : list RunAction :=
  match initial with
  | LoadFailed err | LoadInvalid _ err => [Return (Some err)]
  | LoadOk conf => startWorkers conf ++ runLoop once conf wakes
  end.

Definition isGoWorker (a : RunAction) : bool :=
  match a with
  | GoPostHostMetricWorker | GoDumpHostMetricWorker
  | GoPostServiceMetricWorker | GoDumpServiceMetricWorker => true
  | _ => false
  end.

(** The configurations that [Run] may work with: those of the first
    configuration and those of the configurations that a tick loaded
    without error. *)
Definition inUse (conf : Config) (wakes : list Wake) (c : Config) : Prop :=
  c = conf \/ In (Ticked (LoadOk c)) wakes.

(** *** The host task of [runProbes]

    The goroutine started for one host; [probeRun] is [probe.Run(ctx)], the
    metrics and the error a probe returns. *)

Inductive TaskAction :=
| Lock
| Unlock
| TaskDone
| TaskLogged (line : LogLine)
| WarnProbeFailed (err hostID hostName : string)
| SendMetric (m : HostMetric).

Definition runProbe (probeRun : Probe -> list HostMetric * option string)
    (host : Host) (probe : Probe) : list TaskAction :=
  let '(metrics, err) := probeRun probe in
  match err with
  | Some e => [WarnProbeFailed e (Host_ID host) (Host_Name host)]
  | None => []
  end
  ++ map SendMetric metrics.

(** The deferred calls run in reverse: [wg2.Done()], then [unlock()]. *)
Definition hostTask (probeRun : Probe -> list HostMetric * option string)
    (pd : ProbeDefinition) (host : Host) (client : Client) : list TaskAction :=
  let '(probes, logs) := GenerateProbes pd host client in
  [Lock] ++ map TaskLogged logs ++ flat_map (runProbe probeRun host) probes
  ++ [TaskDone; Unlock].

Fixpoint sentByTask (acts : list TaskAction) : list HostMetric :=
  match acts with
  | [] => []
  | SendMetric m :: rest => m :: sentByTask rest
  | _ :: rest => sentByTask rest
  end.

End RunModel.

(** ** The semaphore of the host tasks

    [lock] sends on the buffered channel [sem], [unlock] receives from it.
    The state counts the host tasks that have been started and have not yet
    passed [lock], the host tasks between [lock] and [unlock], and the
    elements in the channel.  A send goes through when the channel holds
    fewer than [MaxConcurrency] elements, a receive when it holds one. *)

Record Pool := {
  waiting : Z;
  running : Z;
  sem : Z
}.

Inductive poolStep : Pool -> Pool -> Prop :=
| step_go (p : Pool) :
    poolStep p {| waiting := waiting p + 1; running := running p; sem := sem p |}
| step_lock (p : Pool) :
    0 < waiting p -> sem p < MaxConcurrency ->
    poolStep p {| waiting := waiting p - 1; running := running p + 1; sem := sem p + 1 |}
| step_unlock (p : Pool) :
    0 < running p -> 0 < sem p ->
    poolStep p {| waiting := waiting p; running := running p - 1; sem := sem p - 1 |}.

Inductive poolReachable : Pool -> Prop :=
| reach_start : poolReachable {| waiting := 0; running := 0; sem := 0 |}
| reach_step (p q : Pool) : poolReachable p -> poolStep p q -> poolReachable q.

(** ** Notions used to state further properties of the reducers *)

(** A float that is not above, or not below, zero: it is NaN or it compares
    accordingly. *)
Definition notAboveZero (f : float) : Prop :=
  math.IsNaN f = true \/ (f <=? 0)%float = true.

Definition notBelowZero (f : float) : Prop :=
  math.IsNaN f = true \/ (0 <=? f)%float = true.

(* ===================================================================== *)
(** * Part II.  Properties                                                *)
(* ===================================================================== *)

(** ** Reducers *)

(** C1.  The specification asks that [min] and [max] return the true extremum
    of a non-empty list.  The code seeds the accumulator with 0: on the
    all-positive list [1; 2] [min] returns 0 although the least element is 1,
    and on the all-negative list [-1; -2] [max] returns 0 although the
    greatest element is -1. *)
Theorem min_max_zero_seed :
  Reducers.min [1; 2]%float = 0%float /\
  true_min [1; 2]%float = Some 1%float /\
  Reducers.max [-1; -2]%float = 0%float /\
  true_max [-1; -2]%float = Some (-1)%float.
Proof. repeat split; vm_compute; reflexivity. Qed.


(** ** Probe generation *)

Section ProbeGeneration.

Context `{Collaborators}.

(** C10.  [GenerateProbes] returns one probe for each populated variant whose
    generation succeeded, in the order ping, tcp, http, command, and logs one
    error for each populated variant whose generation failed; a failure
    leaves the other variants untouched. *)
Theorem GenerateProbes_in_order (pd : ProbeDefinition) (host : Host) (client : Client) :
  GenerateProbes pd host client =
    (flat_map generatedProbe (populated pd host client),
     flat_map (generationError host) (populated pd host client)).
Proof.
  unfold GenerateProbes, populated.
  destruct (pd_Ping pd) as [c1|]; simpl;
    [destruct (Ping_GenerateProbe c1 host)|]; simpl;
    (destruct (pd_TCP pd) as [c2|]; simpl;
       [destruct (TCP_GenerateProbe c2 host)|]; simpl;
       (destruct (pd_HTTP pd) as [c3|]; simpl;
          [destruct (HTTP_GenerateProbe c3 host)|]; simpl;
          (destruct (pd_Command pd) as [c4|]; simpl;
             [destruct (Command_GenerateProbe c4 host client)|]; reflexivity))).
Qed.

End ProbeGeneration.

(** The ping variant fails, the tcp and command variants succeed: two probes
    come back, tcp before command, and one error is logged. *)
Example GenerateProbes_partial_failure :
  GenerateProbes (H := exampleCollaborators) pingFailing "h1"%string tt
  = (["tcp 10.0.0.1:11211 for h1"; "command check.sh for h1"]%string,
     [ErrorCannotGenerate "ping" "h1" "h1" "empty address"]).
Proof. reflexivity. Qed.

(** ** Normalization of roles at load *)

Section Normalization.

Context `{Collaborators}.

Lemma Forall2_map_self {A B : Type} (P : A -> B -> Prop) (f : A -> B) (l : list A) :
  (forall x, P x (f x)) -> Forall2 P l (map f l).
Proof. intros Hf. induction l as [|x l IH]; simpl; constructor; auto. Qed.

Lemma forEach_fst {A : Type} (body : A -> A * list LogLine) (l : list A) :
  (forEach body l).1 = map (fun x => (body x).1) l.
Proof.
  induction l as [|x l IH]; simpl; [reflexivity|].
  destruct (body x) as [x' logs]. destruct (forEach body l) as [l' logs'].
  simpl in *. now rewrite IH.
Qed.

Lemma mergedRoles_member (role : string) (roles : list string) :
  ~ In ""%string roles -> (In role (mergedRoles role roles) <-> role <> ""%string).
Proof.
  intros Hno. unfold mergedRoles.
  destruct (String.eqb_spec role "") as [->|Hne].
  - rewrite app_nil_r. split; [contradiction | congruence].
  - split; [trivial|]. intros _. apply in_or_app. right. now left.
Qed.

Lemma initializeProbe_normalized (pd : ProbeDefinition) :
  rolesNormalized (pd_Role pd) (pd_Roles pd)
    (pd_Role (initializeProbe pd)) (pd_Roles (initializeProbe pd)).
Proof.
  assert (Hr : pd_Role (initializeProbe pd) = pd_Role pd)
    by (unfold initializeProbe; destruct (String.eqb (pd_Role pd) ""); reflexivity).
  assert (Hs : pd_Roles (initializeProbe pd) = mergedRoles (pd_Role pd) (pd_Roles pd)).
  { unfold initializeProbe, mergedRoles.
    destruct (String.eqb (pd_Role pd) ""); simpl; [now rewrite app_nil_r | reflexivity]. }
  repeat split; try assumption; rewrite Hr, Hs; now apply mergedRoles_member.
Qed.

Lemma initializeAggregate_normalized (ad : AggregateDefinition) :
  rolesNormalized (ad_Role ad) (ad_Roles ad)
    (ad_Role (initializeAggregate ad)) (ad_Roles (initializeAggregate ad)).
Proof.
  assert (Hr : ad_Role (initializeAggregate ad) = ad_Role ad)
    by (unfold initializeAggregate; destruct (String.eqb (ad_Role ad) ""); reflexivity).
  assert (Hs : ad_Roles (initializeAggregate ad) = mergedRoles (ad_Role ad) (ad_Roles ad)).
  { unfold initializeAggregate, mergedRoles.
    destruct (String.eqb (ad_Role ad) ""); simpl; [now rewrite app_nil_r | reflexivity]. }
  repeat split; try assumption; rewrite Hr, Hs; now apply mergedRoles_member.
Qed.

Lemma validateAggregate_roles (ag : AggregateDefinition) :
  ad_Role (validateAggregate ag).1 = ad_Role ag /\
  ad_Roles (validateAggregate ag).1 = ad_Roles ag.
Proof.
  unfold validateAggregate. destruct (forEach validateMetric (ad_Metrics ag)).
  split; reflexivity.
Qed.

(** [validate] leaves the probe definitions alone and only rebuilds the
    aggregate definitions through [validateAggregate]. *)
Lemma validate_definitions (c c' : Config) (logs : list LogLine) (err : option string) :
  validate c = (c', logs, err) ->
  Probes c' = Probes c /\
  (err = None -> Aggregates c' = map (fun ag => (validateAggregate ag).1) (Aggregates c)).
Proof.
  unfold validate. destruct (String.eqb (APIKey c) "").
  - intros [= <- <- <-]. split; [reflexivity | discriminate].
  - pose proof (forEach_fst validateAggregate (Aggregates c)) as Hfst.
    destruct (ProbeOnly c); destruct (forEach validateAggregate (Aggregates c));
      intros [= <- <- <-]; simpl in *; split; congruence.
Qed.

(** C8, as amended.  After a successful load every probe definition and every
    aggregate definition keeps its legacy role, and its roles are the
    list-form roles of the document followed by the legacy role when that
    role was set; provided the list-form roles held no empty string, the role
    is a member of the roles if and only if it was set. *)
Theorem roles_after_load (env : Environment) (loc : string) (c : Config)
    (logs : list LogLine) :
  LoadConfig env loc = (LoadOk c, logs) ->
  exists b c0,
    fetch env loc = inl b /\
    yaml_Unmarshal env b (initialConfig env loc) = inl c0 /\
    Forall2 (fun pd0 pd =>
               rolesNormalized (pd_Role pd0) (pd_Roles pd0) (pd_Role pd) (pd_Roles pd))
            (Probes c0) (Probes c) /\
    Forall2 (fun ad0 ad =>
               rolesNormalized (ad_Role ad0) (ad_Roles ad0) (ad_Role ad) (ad_Roles ad))
            (Aggregates c0) (Aggregates c).
Proof.
  unfold LoadConfig.
  destruct (fetch env loc) as [b|e] eqn:Hf; [|discriminate].
  destruct (yaml_Unmarshal env b (initialConfig env loc)) as [c0|e] eqn:Hu; [|discriminate].
  destruct (validate (initialize c0)) as [[c1 logs1] [e|]] eqn:Hv; [discriminate|].
  intros [= <- <-].
  apply validate_definitions in Hv as [Hp Ha]. specialize (Ha eq_refl).
  exists b, c0. repeat split; try reflexivity; try assumption.
  - rewrite Hp. simpl. apply Forall2_map_self, initializeProbe_normalized.
  - rewrite Ha. simpl. rewrite map_map. apply Forall2_map_self. intros ad.
    destruct (validateAggregate_roles (initializeAggregate ad)) as [-> ->].
    apply initializeAggregate_normalized.
Qed.

End Normalization.

Section NormalizationExamples.

#[local] Existing Instance exampleCollaborators.

Example sample_configuration_loads :
  LoadConfig sampleEnvironment "maprobe.yaml" = (LoadOk sampleLoaded, []).
Proof. reflexivity. Qed.

Lemma roles_after_load_witness :
  exists b c0,
    fetch sampleEnvironment "maprobe.yaml" = inl b /\
    yaml_Unmarshal sampleEnvironment b (initialConfig sampleEnvironment "maprobe.yaml")
      = inl c0 /\
    Forall2 (fun pd0 pd =>
               rolesNormalized (pd_Role pd0) (pd_Roles pd0) (pd_Role pd) (pd_Roles pd))
            (Probes c0) (Probes sampleLoaded) /\
    Forall2 (fun ad0 ad =>
               rolesNormalized (ad_Role ad0) (ad_Roles ad0) (ad_Role ad) (ad_Roles ad))
            (Aggregates c0) (Aggregates sampleLoaded).
Proof.
  apply (roles_after_load sampleEnvironment "maprobe.yaml" sampleLoaded []).
  reflexivity.
Defined.

(** C8, as stated, fails on a document such as
    [probes: [{service: prod, roles: [""], ping: ...}]]: the legacy role is
    not set, nothing is appended, and yet the (empty) role is a member of the
    roles. *)
Lemma role_member_although_unset :
  exists c logs pd,
    LoadConfig (environmentOf [emptyRoleListed] []) "maprobe.yaml" = (LoadOk c, logs) /\
    Probes c = [pd] /\
    pd_Roles pd = mergedRoles (pd_Role emptyRoleListed) (pd_Roles emptyRoleListed) /\
    ~ (In (pd_Role pd) (pd_Roles pd) <-> pd_Role emptyRoleListed <> ""%string).
Proof.
  eexists _, _, _. split; [reflexivity|]. split; [reflexivity|]. split; [reflexivity|].
  simpl. intros [Hmem _]. apply Hmem; [now left | reflexivity].
Qed.

End NormalizationExamples.

(** ** The spawn interval of the probe runner *)

Section ProbeRunner.

Context `{Collaborators}.

Lemma spawnHostTasks_flat_map (d : time.Duration) (hosts : list Host) :
  spawnHostTasks d hosts = flat_map (fun host => [SleepFor d; SpawnHostTask host]) hosts.
Proof. induction hosts as [|host rest IH]; simpl; [reflexivity | now rewrite IH]. Qed.

(** Dividing by [n] and then by 2, truncating each time, is dividing by
    [2 * n]. *)
Lemma quot_quot_two (p n : Z) : 0 <= p -> 0 < n -> Z.quot (Z.quot p n) 2 = p / (2 * n).
Proof.
  intros Hp Hn.
  rewrite (Z.quot_div_nonneg p n) by lia.
  rewrite Z.quot_div_nonneg by (try apply Z.div_pos; lia).
  rewrite Z.div_div by lia. f_equal. lia.
Qed.

Lemma spawnInterval_min (hosts : list Host) :
  hosts <> [] ->
  spawnInterval hosts = Z.min (ProbeInterval / (2 * Z.of_nat (length hosts))) time.Second.
Proof.
  intros Hne. unfold spawnInterval.
  assert (0 < Z.of_nat (length hosts)) by (destruct hosts; [congruence | simpl; lia]).
  rewrite quot_quot_two by (trivial; unfold ProbeInterval, time.Second, time.Nanosecond; lia).
  destruct (Z.ltb_spec time.Second (ProbeInterval / (2 * Z.of_nat (length hosts)))); lia.
Qed.

(** C9.  For a non-empty host list of size [n] the runner computes
    [min (ProbeInterval / (2 * n), 1 s)] in truncating integer arithmetic and
    sleeps that long before each host task, in discovery order; the interval
    is zero exactly when [2 * n] exceeds [ProbeInterval] in nanoseconds. *)
Theorem spawn_interval (backend : Backend) (pd : ProbeDefinition) (hosts : list Host) :
  FindHosts backend {| fh_Service := pd_Service pd; fh_Roles := pd_Roles pd;
                       fh_Statuses := pd_Statuses pd |} = inl hosts ->
  hosts <> [] ->
  let n := Z.of_nat (length hosts) in
  spawnInterval hosts = Z.min (ProbeInterval / (2 * n)) time.Second /\
  runProbes backend pd =
    flat_map (fun host => [SleepFor (spawnInterval hosts); SpawnHostTask host]) hosts /\
  (spawnInterval hosts = 0 <-> ProbeInterval < 2 * n).
Proof.
  intros Hfind Hne n.
  assert (Hn : 0 < n) by (subst n; destruct hosts; [congruence | simpl; lia]).
  pose proof (spawnInterval_min hosts Hne) as Hmin. fold n in Hmin.
  split; [exact Hmin|]. split.
  - unfold runProbes. rewrite Hfind.
    destruct hosts as [|h rest]; [congruence|].
    cbn [length Nat.eqb]. apply spawnHostTasks_flat_map.
  - rewrite Hmin.
    assert (Hsec : 0 < time.Second) by (unfold time.Second, time.Nanosecond; lia).
    assert (Hp : 0 <= ProbeInterval) by (unfold ProbeInterval; lia).
    pose proof (Z.div_small_iff ProbeInterval (2 * n) ltac:(lia)) as Hsmall.
    assert (0 <= ProbeInterval / (2 * n)) by (apply Z.div_pos; lia).
    split.
    + intros Hz. assert (Hq : ProbeInterval / (2 * n) = 0) by lia.
      apply Hsmall in Hq. lia.
    + intros Hlt. assert (Hq : ProbeInterval / (2 * n) = 0) by (apply Hsmall; lia). lia.
Qed.

End ProbeRunner.

Section ProbeRunnerExamples.

#[local] Existing Instance exampleCollaborators.

(** Three hosts: the uncapped interval would be ten seconds, so each host
    task starts after one second. *)
Lemma spawn_interval_witness :
  let hosts := ["h1"; "h2"; "h3"]%string in
  let backend := {| FindHosts := fun _ => inl hosts;
                    fetchLatestMetricValues := fun _ _ => inl [] |} in
  let pd := pingFailing in
  spawnInterval hosts = Z.min (ProbeInterval / (2 * 3)) time.Second /\
  runProbes backend pd =
    flat_map (fun host => [SleepFor (spawnInterval hosts); SpawnHostTask host]) hosts /\
  (spawnInterval hosts = 0 <-> ProbeInterval < 2 * 3).
Proof.
  intros hosts backend pd.
  apply (spawn_interval backend pd hosts); [reflexivity | discriminate].
Defined.

Example three_hosts_one_second :
  spawnInterval ["h1"; "h2"; "h3"]%string = time.Second.
Proof. reflexivity. Qed.

End ProbeRunnerExamples.

(** ** The aggregate runner *)

Section Aggregation.

Context `{Collaborators}.

(** The freshness test of the code is the test "strictly later than now
    minus three minutes". *)
Lemma After_margin_fresh (now : time.Time) (s : MetricValue) :
  time.After (time.Unix (mv_Time s) 0) (time.Add now metricTimeMargin) = fresh now s.
Proof.
  unfold time.After, time.Add, metricTimeMargin, fresh. f_equal; lia.
Qed.

(** The scan accumulates exactly the accepted samples, in order. *)
Lemma scan_accepted (now : time.Time) (name : string) (latest : LatestMetricValues) :
  forall (timestamp : Z) (values : list float),
    fold_left (scanLatest now name) latest (timestamp, values) =
      (scanTimestamp (accepted now name latest) timestamp,
       values ++ map sampleValue (accepted now name latest)).
Proof.
  unfold accepted, considered.
  induction latest as [|entry rest IH]; intros timestamp values; simpl.
  - now rewrite app_nil_r.
  - rewrite List.filter_app. unfold scanTimestamp. rewrite map_app, fold_left_app.
    destruct (entry.2 !! name) as [[s|]|]; simpl;
      try (rewrite IH; reflexivity).
    destruct (mv_Value s) as [v|] eqn:Hv; simpl;
      try (rewrite IH; reflexivity).
    rewrite After_margin_fresh.
    destruct (fresh now s); simpl; rewrite IH; [|reflexivity].
    unfold sampleValue at 2. rewrite Hv. now rewrite <- app_assoc.
Qed.

(** [time.Unix] on the seconds that do not wrap. *)
Lemma wrap64_in_range (z : Z) : time.minInt64 <= z <= time.maxInt64 -> time.wrap64 z = z.
Proof.
  unfold time.minInt64, time.maxInt64, time.wrap64. intros Hz.
  rewrite Z.mod_small by lia. lia.
Qed.

Lemma wrap64_le (z : Z) : time.minInt64 <= z -> time.wrap64 z <= z.
Proof.
  unfold time.minInt64, time.wrap64. intros Hz.
  pose proof (Z.mod_le (z + 2 ^ 63) (2 ^ 64) ltac:(lia) ltac:(lia)). lia.
Qed.

Lemma Unix_in_range (sec nsec : Z) :
  time.minInt64 <= sec <= time.maxInt64 - time.unixToInternal ->
  0 <= nsec < time.Second ->
  time.Unix sec nsec = sec * time.Second + nsec.
Proof.
  intros Hsec Hnsec. unfold time.Unix.
  rewrite (Z.div_small nsec time.Second), (Z.mod_small nsec time.Second) by assumption.
  rewrite wrap64_in_range; [lia|].
  unfold time.minInt64, time.maxInt64, time.unixToInternal in *. lia.
Qed.

Lemma Unix_le (sec : Z) :
  time.minInt64 <= sec -> time.Unix sec 0 <= sec * time.Second.
Proof.
  intros Hsec. unfold time.Unix.
  assert (Hs : 0 < time.Second) by (unfold time.Second, time.Nanosecond; lia).
  rewrite (Z.div_small 0 time.Second), (Z.mod_small 0 time.Second) by lia.
  assert (Hw : time.wrap64 (sec + 0 + time.unixToInternal) <= sec + 0 + time.unixToInternal).
  { apply wrap64_le. unfold time.minInt64, time.unixToInternal in *. lia. }
  nia.
Qed.

(** C6, as amended.  The values that are reduced are the values of the
    accepted samples.  A considered sample whose time is at most the greatest
    [int64] minus 62135596800 seconds (so that [time.Unix] does not wrap) is
    accepted if and only if its time is strictly later than [now] minus
    three minutes; and no sample whose time is at most [now] minus three
    minutes is accepted. *)
Theorem freshness_gate (now : time.Time) (name : string) (latest : LatestMetricValues) :
  (fold_left (scanLatest now name) latest (0, [])).2
    = map sampleValue (accepted now name latest) /\
  (forall s, In s (considered name latest) ->
     time.minInt64 <= mv_Time s <= time.maxInt64 - time.unixToInternal ->
     (In s (accepted now name latest) <->
      now - 3 * time.Minute < mv_Time s * time.Second)) /\
  (forall s, time.minInt64 <= mv_Time s ->
     mv_Time s * time.Second <= now - 3 * time.Minute ->
     ~ In s (accepted now name latest)).
Proof.
  assert (Hs : 0 < time.Second) by (unfold time.Second, time.Nanosecond; lia).
  split; [now rewrite scan_accepted|]. unfold accepted. split.
  - intros s Hcons Hrange. rewrite List.filter_In. unfold fresh. rewrite Z.ltb_lt.
    rewrite (Unix_in_range (mv_Time s) 0) by (trivial; lia).
    rewrite Z.add_0_r. tauto.
  - intros s Hmin Hold. rewrite List.filter_In. unfold fresh. rewrite Z.ltb_lt.
    pose proof (Unix_le (mv_Time s) Hmin). lia.
Qed.

(** What one metric configuration sends, in terms of the accepted samples. *)
Lemma aggregateMetric_accepted (now : time.Time) (service : string)
    (latest : LatestMetricValues) (mc : MetricConfig) :
  aggregateMetric now service latest mc =
    match accepted now (mc_Name mc) latest with
    | [] => []
    | acc =>
        map (fun output =>
               {| sm_Service := service;
                  sm_Name := oc_Name output;
                  sm_Value := reduce (map sampleValue acc) output;
                  sm_Timestamp := time.Unix (int64_of_float64 (scanTimestamp acc 0)) 0 |})
            (mc_Outputs mc)
    end.
Proof.
  unfold aggregateMetric. rewrite scan_accepted. simpl.
  destruct (accepted now (mc_Name mc) latest); reflexivity.
Qed.

Lemma float64_of_int64_exact (t : Z) : 0 <= t < 2 ^ 53 -> float64_of_int64 t = t.
Proof.
  intros Ht. unfold float64_of_int64.
  destruct (Z.ltb_spec (Z.abs t) (2 ^ 53)); [reflexivity | lia].
Qed.

(** On sample times that a [float64] holds exactly, the accumulator is the
    running maximum and stays in that range. *)
Lemma scanTimestamp_exact (samples : list MetricValue) :
  forall m : Z,
    0 <= m < 2 ^ 53 ->
    (forall s, In s samples -> 0 <= mv_Time s < 2 ^ 53) ->
    scanTimestamp samples m = fold_left (fun m s' => Z.max m (mv_Time s')) samples m /\
    0 <= scanTimestamp samples m < 2 ^ 53.
Proof.
  unfold scanTimestamp, math.MaxIntegral.
  induction samples as [|s rest IH]; intros m Hm Hall; simpl; [split; [reflexivity | lia]|].
  assert (Hs : 0 <= mv_Time s < 2 ^ 53) by (apply Hall; now left).
  rewrite (float64_of_int64_exact _ Hs), (Z.max_comm (mv_Time s) m).
  apply IH; [lia | intros s' Hs'; apply Hall; now right].
Qed.

Lemma emitted_timestamp_max (samples : list MetricValue) :
  samples <> [] ->
  (forall s, In s samples -> 0 <= mv_Time s < 2 ^ 53) ->
  int64_of_float64 (scanTimestamp samples 0) = maxTime samples.
Proof.
  intros Hne Hall.
  destruct (scanTimestamp_exact samples 0 ltac:(lia) Hall) as [Heq Hrange].
  unfold int64_of_float64.
  destruct (Z.leb_spec (- 2 ^ 63) (scanTimestamp samples 0)); [|lia].
  destruct (Z.ltb_spec (scanTimestamp samples 0) (2 ^ 63)); [|lia].
  simpl. rewrite Heq. destruct samples as [|s rest]; [congruence|]. simpl.
  f_equal. assert (0 <= mv_Time s) by (apply Hall; now left). lia.
Qed.

(** C7, as amended.  For a metric configuration in an aggregate run: if no
    value is accepted nothing is sent; if at least one value is accepted,
    exactly one service metric per output is sent, in the order of the
    outputs and under the output's name; and when the accepted sample times
    are non-negative and below 2^53 (so that the [float64] accumulator, which
    starts at 0, holds them exactly), every metric sent is the reduction of
    the accepted values stamped with the greatest accepted sample time. *)
Theorem aggregate_emission (now : time.Time) (service : string)
    (latest : LatestMetricValues) (mc : MetricConfig) :
  let acc := accepted now (mc_Name mc) latest in
  let sent := aggregateMetric now service latest mc in
  (acc = [] -> sent = []) /\
  (acc <> [] ->
     length sent = length (mc_Outputs mc) /\
     map sm_Name sent = map oc_Name (mc_Outputs mc) /\
     ((forall s, In s acc -> 0 <= mv_Time s < 2 ^ 53) ->
      sent = map (fun output =>
                    {| sm_Service := service;
                       sm_Name := oc_Name output;
                       sm_Value := reduce (map sampleValue acc) output;
                       sm_Timestamp := time.Unix (maxTime acc) 0 |})
                 (mc_Outputs mc))).
Proof.
  cbv zeta. rewrite aggregateMetric_accepted.
  generalize (accepted now (mc_Name mc) latest) as acc. intros acc.
  split; [intros ->; reflexivity|]. intros Hne.
  split; [|split].
  - destruct acc; [congruence|]. now rewrite length_map.
  - destruct acc; [congruence|]. now rewrite map_map.
  - intros Hall. rewrite <- (emitted_timestamp_max acc Hne Hall).
    destruct acc; [congruence | reflexivity].
Qed.

(** *** Outputs whose function is not a reducer name *)

Lemma forEach_logs {A : Type} (body : A -> A * list LogLine) (l : list A)
    (x : A) (line : LogLine) :
  In x l -> In line (body x).2 -> In line (forEach body l).2.
Proof.
  induction l as [|y l IH]; simpl; [contradiction|]. intros Hx Hline.
  destruct (body y) as [y' logs] eqn:Hy. destruct (forEach body l) as [l' logs'].
  simpl in *. apply in_or_app. destruct Hx as [->|Hx].
  - left. now rewrite Hy in Hline.
  - right. now apply IH.
Qed.

Lemma unrecognised_cases (f : string) :
  recognised f = false ->
  String.eqb f "sum" = false /\ String.eqb f "min" = false /\
  String.eqb f "max" = false /\ String.eqb f "avg" = false /\
  String.eqb f "average" = false /\ String.eqb f "count" = false.
Proof.
  unfold recognised. intros Hf.
  repeat (apply orb_false_elim in Hf as [Hf ?]). auto 10.
Qed.

Lemma validateOutput_unrecognised (mcName : string) (oc : OutputConfig) :
  recognised (ToLower (oc_Func oc)) = false ->
  validateOutput mcName oc = (oc, [WarnFuncNotAvailable (oc_Func oc) mcName]).
Proof.
  intros Hf. apply unrecognised_cases in Hf as (H1 & H2 & H3 & H4 & H5 & H6).
  unfold validateOutput. now rewrite H1, H2, H3, H4, H5, H6.
Qed.

Lemma reduce_unrecognised (values : list float) (oc : OutputConfig) :
  recognised (ToLower (oc_Func oc)) = false -> reduce values oc = 0%float.
Proof.
  intros Hf. apply unrecognised_cases in Hf as (H1 & H2 & H3 & H4 & H5 & H6).
  unfold reduce. now rewrite H1, H2, H3, H4, H5, H6.
Qed.

Lemma validate_no_error (c : Config) :
  APIKey c <> ""%string -> (validate c).2 = None.
Proof.
  intros Hkey. unfold validate.
  destruct (String.eqb_spec (APIKey c) ""); [contradiction|].
  destruct (ProbeOnly c); destruct (forEach validateAggregate (Aggregates c)); reflexivity.
Qed.

Lemma validate_logs (c : Config) (ag : AggregateDefinition) (line : LogLine) :
  APIKey c <> ""%string ->
  In ag (Aggregates c) -> In line (validateAggregate ag).2 -> In line (validate c).1.2.
Proof.
  intros Hkey Hag Hline. unfold validate.
  destruct (String.eqb_spec (APIKey c) ""); [contradiction|].
  pose proof (forEach_logs validateAggregate (Aggregates c) ag line Hag Hline) as Hin.
  destruct (ProbeOnly c); destruct (forEach validateAggregate (Aggregates c));
    simpl in *; auto.
Qed.

(** What the code does, in general, with an output whose lowercased [func]
    is none of sum, min, max, avg, average, count, in a configuration with an
    API key: [validate] logs the warning, returns no error and leaves the
    output as it was; the switch of [runAggregates], which has no [default],
    does not skip the output: whenever its metric configuration has an
    accepted value, a service metric is sent for it at its position, under
    its name, with the value 0 that [value] starts from. *)
Theorem unknown_func_warned_not_skipped (c : Config) (ag : AggregateDefinition)
    (mc : MetricConfig) (oc : OutputConfig) :
  APIKey c <> ""%string ->
  In ag (Aggregates c) -> In mc (ad_Metrics ag) -> In oc (mc_Outputs mc) ->
  recognised (ToLower (oc_Func oc)) = false ->
  (validate c).2 = None /\
  In (WarnFuncNotAvailable (oc_Func oc) (mc_Name mc)) (validate c).1.2 /\
  validateOutput (mc_Name mc) oc = (oc, [WarnFuncNotAvailable (oc_Func oc) (mc_Name mc)]) /\
  (forall now service latest (i : nat),
     accepted now (mc_Name mc) latest <> [] ->
     nth_error (mc_Outputs mc) i = Some oc ->
     exists sm,
       nth_error (aggregateMetric now service latest mc) i = Some sm /\
       sm_Service sm = service /\ sm_Name sm = oc_Name oc /\ sm_Value sm = 0%float).
Proof.
  intros Hkey Hag Hmc Hoc Hf.
  pose proof (validateOutput_unrecognised (mc_Name mc) oc Hf) as Hout.
  split; [now apply validate_no_error|]. split; [|split; [exact Hout|]].
  - apply (validate_logs c ag); trivial.
    unfold validateAggregate.
    pose proof (forEach_logs validateMetric (ad_Metrics ag) mc
                  (WarnFuncNotAvailable (oc_Func oc) (mc_Name mc)) Hmc) as Hin.
    destruct (forEach validateMetric (ad_Metrics ag)); simpl in *. apply Hin.
    unfold validateMetric.
    pose proof (forEach_logs (validateOutput (mc_Name mc)) (mc_Outputs mc) oc
                  (WarnFuncNotAvailable (oc_Func oc) (mc_Name mc)) Hoc) as Hin'.
    destruct (forEach (validateOutput (mc_Name mc)) (mc_Outputs mc)); simpl in *.
    apply Hin'. rewrite Hout. now left.
  - intros now service latest i Hacc Hi.
    rewrite aggregateMetric_accepted.
    destruct (accepted now (mc_Name mc) latest) as [|s rest]; [congruence|].
    rewrite nth_error_map, Hi. simpl. eexists. split; [reflexivity|].
    simpl. repeat split. now apply reduce_unrecognised.
Qed.

End Aggregation.

Section AggregationExamples.

#[local] Existing Instance exampleCollaborators.

(** The stale sample of [h2] is left out; sum and average are taken over the
    other two, and both metrics carry the later of the two sample times. *)
Example aggregate_three_hosts :
  accepted clock "m" threeHosts
    = [ {| mv_Name := "m"; mv_Time := 1700000000; mv_Value := Float64Value 1 |};
        {| mv_Name := "m"; mv_Time := 1700000001; mv_Value := Float64Value 3 |} ] /\
  runAggregates (backendOf ["h1"; "h2"; "h3"]%string threeHosts)
    {| ad_Service := "prod"; ad_Role := ""; ad_Roles := ["web"]; ad_Statuses := [];
       ad_Metrics := [sumAndAverage] |}%string clock
    = [ {| sm_Service := "prod"; sm_Name := "m_sum"; sm_Value := 4;
           sm_Timestamp := time.Unix 1700000001 0 |};
        {| sm_Service := "prod"; sm_Name := "m_avg"; sm_Value := 2;
           sm_Timestamp := time.Unix 1700000001 0 |} ].
Proof. split; vm_compute; reflexivity. Qed.

Lemma aggregate_emission_witness :
  aggregateMetric clock "prod" threeHosts sumAndAverage
    = map (fun output =>
             {| sm_Service := "prod";
                sm_Name := oc_Name output;
                sm_Value := reduce (map sampleValue (accepted clock "m" threeHosts)) output;
                sm_Timestamp := time.Unix (maxTime (accepted clock "m" threeHosts)) 0 |})
          (mc_Outputs sumAndAverage).
Proof.
  destruct (aggregate_emission clock "prod" threeHosts sumAndAverage) as [_ Hsome].
  apply Hsome.
  - vm_compute. discriminate.
  - intros s Hs. vm_compute in Hs.
    destruct Hs as [<-|[<-|[]]]; simpl; lia.
Defined.

(** C7, as stated, fails where the accumulator cannot hold the greatest
    sample time.  A clock that stands 100 seconds after the epoch accepts a
    sample stamped 5 seconds before the epoch, and the metrics are stamped
    with the epoch; a sample stamped 2^53 + 1 is accepted and the metrics are
    stamped 2^53. *)
Lemma timestamp_is_not_greatest_sample_time :
  (maxTime (accepted (time.Unix 100 0) "m" beforeEpoch) = -5 /\
   map sm_Timestamp (aggregateMetric (time.Unix 100 0) "prod" beforeEpoch sumAndAverage)
     = [time.Unix 0 0; time.Unix 0 0] /\
   time.Unix 0 0 <> time.Unix (-5) 0) /\
  (maxTime (accepted clock "m" beyondFloat) = 2 ^ 53 + 1 /\
   map sm_Timestamp (aggregateMetric clock "prod" beyondFloat sumAndAverage)
     = [time.Unix (2 ^ 53) 0; time.Unix (2 ^ 53) 0] /\
   time.Unix (2 ^ 53) 0 <> time.Unix (2 ^ 53 + 1) 0).
Proof.
  split; (split; [vm_compute; reflexivity|]); (split; [vm_compute; reflexivity|]);
    vm_compute; discriminate.
Qed.

Lemma unknown_func_warned_not_skipped_witness :
  (validate medianConfig).2 = None /\
  In (WarnFuncNotAvailable "Median" "m") (validate medianConfig).1.2 /\
  validateOutput "m" medianOutput = (medianOutput, [WarnFuncNotAvailable "Median" "m"]) /\
  (forall now service latest (i : nat),
     accepted now "m" latest <> [] ->
     nth_error [medianOutput] i = Some medianOutput ->
     exists sm,
       nth_error (aggregateMetric now service latest
                    {| mc_Name := "m"; mc_Outputs := [medianOutput] |}) i = Some sm /\
       sm_Service sm = service /\ sm_Name sm = "m_median"%string /\ sm_Value sm = 0%float).
Proof.
  apply (unknown_func_warned_not_skipped medianConfig medianAggregate
           {| mc_Name := "m"; mc_Outputs := [medianOutput] |} medianOutput).
  - discriminate.
  - now left.
  - now left.
  - now left.
  - reflexivity.
Defined.

(** C3.  The specification asks that an output whose [func] is not a
    reducer name be warned about at validation and skipped at aggregation.
    The configuration with the output [func: Median] loads with the warning,
    without error and without a bound reducer; the aggregate run, whose
    switch has no [default], then sends a service metric for that output all
    the same, with the value 0: the output is not skipped. *)
Lemma unknown_func_output_is_sent :
  exists ag,
    LoadConfig (environmentOf [] [medianAggregate]) "maprobe.yaml"
      = (LoadOk medianConfig, [WarnFuncNotAvailable "Median" "m"]) /\
    Aggregates medianConfig = [ag] /\
    map (fun mc => map oc_calc (mc_Outputs mc)) (ad_Metrics ag) = [[None]] /\
    recognised (ToLower "Median") = false /\
    runAggregates (backendOf ["h1"; "h2"; "h3"]%string threeHosts) ag clock
      = [ {| sm_Service := "prod"; sm_Name := "m_median"; sm_Value := 0;
             sm_Timestamp := time.Unix 1700000001 0 |} ].
Proof.
  exists medianAggregate. repeat split; vm_compute; reflexivity.
Qed.

(** C6, as stated, fails for a sample stamped with the greatest [int64]:
    the sample is considered and its time is strictly later than the clock
    minus three minutes, but [time.Unix] wraps its seconds into the remote
    past, and the sample is not accepted. *)
Lemma far_future_sample_rejected :
  considered "m" farFuture = [endOfTime] /\
  clock - 3 * time.Minute < mv_Time endOfTime * time.Second /\
  accepted clock "m" farFuture = [] /\
  (fold_left (scanLatest clock "m") farFuture (0, [])).2 = [].
Proof. repeat split; vm_compute; reflexivity. Qed.

Lemma freshness_gate_witness :
  In {| mv_Name := "m"; mv_Time := 1700000000; mv_Value := Float64Value 1 |}
     (accepted clock "m" threeHosts)
  <-> clock - 3 * time.Minute < 1700000000 * time.Second.
Proof.
  destruct (freshness_gate clock "m" threeHosts) as (_ & Hiff & _).
  apply (Hiff {| mv_Name := "m"; mv_Time := 1700000000; mv_Value := Float64Value 1 |}).
  - vm_compute. now left.
  - unfold time.minInt64, time.maxInt64, time.unixToInternal. simpl. lia.
Defined.

End AggregationExamples.

(** ** Configuration reload *)

Section Reload.

Context `{Collaborators}.

(** A slice with an element that is deeply equal to nothing is deeply equal
    to no slice. *)
Lemma DeepEqual_slice_never {A : Type} (eq : A -> A -> bool) (x : A) (l1 : list A) :
  In x l1 -> (forall y, eq x y = false) -> forall l2, DeepEqual_slice eq l1 l2 = false.
Proof.
  intros Hin Hx. induction l1 as [|a l1 IH]; [contradiction|].
  intros [|b l2]; [reflexivity|]. simpl.
  destruct Hin as [->|Hin]; [now rewrite Hx | rewrite IH by assumption; apply andb_false_r].
Qed.

Lemma DeepEqual_OutputConfig_bound (oc : OutputConfig) :
  oc_calc oc <> None -> forall oc', DeepEqual_OutputConfig oc oc' = false.
Proof.
  intros Hb oc'. unfold DeepEqual_OutputConfig, DeepEqual_func.
  destruct (oc_calc oc); [|congruence]. apply andb_false_r.
Qed.

(** A configuration in which some output has a bound reducer is deeply equal
    to no configuration, itself included. *)
Lemma DeepEqual_Config_bound (c : Config) (ag : AggregateDefinition)
    (mc : MetricConfig) (oc : OutputConfig) :
  In ag (Aggregates c) -> In mc (ad_Metrics ag) -> In oc (mc_Outputs mc) ->
  oc_calc oc <> None ->
  forall c', DeepEqual_Config c c' = false.
Proof.
  intros Hag Hmc Hoc Hb c'.
  assert (Hm : forall mc', DeepEqual_MetricConfig mc mc' = false).
  { intros mc'. unfold DeepEqual_MetricConfig.
    rewrite (DeepEqual_slice_never _ oc _ Hoc (DeepEqual_OutputConfig_bound oc Hb)).
    apply andb_false_r. }
  assert (Ha : forall ag', DeepEqual_AggregateDefinition ag ag' = false).
  { intros ag'. unfold DeepEqual_AggregateDefinition.
    rewrite (DeepEqual_slice_never _ mc _ Hmc Hm). apply andb_false_r. }
  unfold DeepEqual_Config.
  rewrite (DeepEqual_slice_never _ ag _ Hag Ha).
  now rewrite andb_false_r.
Qed.

(** With a bound reducer in the current configuration, every successful load
    is swapped in and logged as a reload. *)
Lemma reload_with_bound_reducer (conf newConf : Config) (ag : AggregateDefinition)
    (mc : MetricConfig) (oc : OutputConfig) :
  In ag (Aggregates conf) -> In mc (ad_Metrics ag) -> In oc (mc_Outputs mc) ->
  oc_calc oc <> None ->
  reloadConfig conf (LoadOk newConf)
    = (newConf, [DebugCheckingNewConfig; InfoConfigReloaded; DebugConfigDump]).
Proof.
  intros Hag Hmc Hoc Hb. unfold reloadConfig.
  now rewrite (DeepEqual_Config_bound conf ag mc oc Hag Hmc Hoc Hb).
Qed.

End Reload.

Section ReloadExamples.

#[local] Existing Instance exampleCollaborators.

(** C4.  The sample configuration is loaded twice from the same bytes.  Both
    loads give the same configuration, and still the comparison of [Run]
    finds them different, because the reducers bound by [validate] are
    [func] values: the reload step swaps the configuration and logs
    "config reloaded". *)
Theorem reload_of_identical_bytes_swaps :
  LoadConfig sampleEnvironment "maprobe.yaml" = (LoadOk sampleLoaded, []) /\
  DeepEqual_Config sampleLoaded sampleLoaded = false /\
  reloadConfig sampleLoaded (LoadConfig sampleEnvironment "maprobe.yaml").1
    = (sampleLoaded, [DebugCheckingNewConfig; InfoConfigReloaded; DebugConfigDump]).
Proof. repeat split; reflexivity. Qed.

(** Without aggregates there is no reducer to bind, and the same two loads
    compare equal: nothing is swapped and no reload is logged. *)
Example reload_without_reducers_keeps :
  let env := environmentOf sampleProbes [] in
  exists conf,
    LoadConfig env "maprobe.yaml" = (LoadOk conf, []) /\
    reloadConfig conf (LoadConfig env "maprobe.yaml").1 = (conf, [DebugCheckingNewConfig]).
Proof. eexists. split; reflexivity. Qed.

End ReloadExamples.

(** ** The host-metric shipper *)

Section Shipping.

Context {M V : Type} (toValue : M -> V).

(** The three things a pass can do: leave the POST out and keep what it has,
    POST with success and empty the buffer, or POST with failure, sleep, and
    keep the batch it tried. *)
Lemma workerPass_cases (mvs : list V) (p : Pass M) :
  let batch := mvs ++ received toValue p in
  workerPass toValue mvs p = (batch, goesOn p, []) \/
  workerPass toValue mvs p = ([], goesOn p, [PostValues batch true]) \/
  workerPass toValue mvs p
    = (batch, goesOn p, [PostValues batch false; SleepRetry mackerelRetryInterval]).
Proof.
  unfold workerPass, received, goesOn.
  destruct p as [[m| |] ok]; simpl; rewrite ?app_nil_r.
  - destruct (length (mvs ++ [toValue m]) <? PostMetricBufferLength)%nat; simpl; [now left|].
    destruct (length (mvs ++ [toValue m]) =? 0)%nat; [now left|].
    destruct ok; [right; now left | right; now right].
  - destruct (length mvs =? 0)%nat; [now left|].
    destruct ok; [right; now left | right; now right].
  - destruct (length mvs =? 0)%nat; [now left|].
    destruct ok; [right; now left | right; now right].
Qed.

Lemma posts_app (a b : list (WorkerAction V)) : posts (a ++ b) = posts a ++ posts b.
Proof.
  induction a as [|[mvs ok|d|] a IH]; simpl; [reflexivity | now rewrite IH | exact IH | exact IH].
Qed.

Lemma posts_loop_cons (mvs : list V) (p : Pass M) (rest : list (Pass M)) :
  posts (actions (workerLoop toValue mvs (p :: rest)))
    = posts (workerPass toValue mvs p).2
      ++ (if (workerPass toValue mvs p).1.2
          then posts (actions (workerLoop toValue (workerPass toValue mvs p).1.1 rest))
          else []).
Proof.
  simpl. destruct (workerPass toValue mvs p) as [[mvs' run] acts].
  destruct run; simpl; rewrite posts_app; reflexivity.
Qed.

Lemma buffer_loop_cons (mvs : list V) (p : Pass M) (rest : list (Pass M)) :
  buffer (workerLoop toValue mvs (p :: rest))
    = if (workerPass toValue mvs p).1.2
      then buffer (workerLoop toValue (workerPass toValue mvs p).1.1 rest)
      else (workerPass toValue mvs p).1.1.
Proof.
  simpl. destruct (workerPass toValue mvs p) as [[mvs' run] acts].
  destruct run; reflexivity.
Qed.





End Shipping.

Section ShippingExamples.

#[local] Existing Instance exampleCollaborators.


(** The buffer reaches its cap of 100 on the hundredth receive, whose POST
    fails; the next timer tick posts the same hundred values, with success,
    and the buffer is empty afterwards. *)
Example full_buffer_retried_on_tick :
  let metrics := map (fun i => String (Ascii.ascii_of_nat i) EmptyString) (seq 0 100) in
  let passes : list (Pass string) :=
    map (fun m => {| selected := Received m; postOk := false |}) metrics
    ++ [ {| selected := TickerFired; postOk := true |} ] in
  length metrics = 100%nat /\
  posts (actions (@postHostMetricWorker exampleCollaborators passes)) = [ (metrics, false); (metrics, true) ] /\
  buffer (@postHostMetricWorker exampleCollaborators passes) = [].
Proof. repeat split; vm_compute; reflexivity. Qed.


(** C2.  A service metric is sent and the channel is closed.  The contract
    of the specification posts the metric; [postServiceMetricWorker] returns
    at once and posts nothing, as it does on every sequence of events. *)
Theorem service_worker_posts_nothing :
  let m := {| sm_Service := "prod"; sm_Name := "m_sum"; sm_Value := 4;
              sm_Timestamp := time.Unix 1700000001 0 |}%string in
  let passes := [ {| selected := Received m; postOk := true |};
                  {| selected := ChannelClosed; postOk := true |} ] in
  postServiceMetricWorker passes = {| actions := [WgDone]; buffer := []; returned := true |} /\
  posts (actions (postServiceMetricWorker passes)) = [] /\
  posts (actions (serviceShipperContract passes)) = [([m], true)] /\
  (forall passes', posts (actions (postServiceMetricWorker passes')) = []).
Proof. cbv zeta. repeat split. Qed.

(** The host-metric worker on the same events: the metric is posted on
    close. *)
Example host_worker_posts_on_close :
  posts (actions (@postHostMetricWorker exampleCollaborators
                    [ {| selected := Received "m1"%string; postOk := true |};
                      {| selected := ChannelClosed; postOk := true |} ]))
    = [ (["m1"]%string, true) ].
Proof. reflexivity. Qed.

End ShippingExamples.

(* ===================================================================== *)
(** * Part III.  Further properties of the code                           *)
(* ===================================================================== *)

(** ** Validation *)

Section Validation.

Context `{Collaborators}.

Lemma forEach_snd {A : Type} (body : A -> A * list LogLine) (l : list A) :
  (forEach body l).2 = flat_map (fun x => (body x).2) l.
Proof.
  induction l as [|x l IH]; simpl; [reflexivity|].
  destruct (body x) as [x' logs]. destruct (forEach body l) as [l' logs'].
  simpl in *. now rewrite IH.
Qed.

Lemma forEach_idempotent {A : Type} (body : A -> A * list LogLine) (l : list A) :
  (forall x, body (body x).1 = body x) ->
  forEach body (forEach body l).1 = forEach body l.
Proof.
  intros Hbody. induction l as [|x l IH]; simpl; [reflexivity|].
  pose proof (Hbody x) as Hx.
  destruct (body x) as [x' logs]. destruct (forEach body l) as [l' logs'].
  simpl in *. now rewrite Hx, IH.
Qed.

(** What [validateOutput] does, by whether the name is recognised; the
    reducer it binds is the one that [runAggregates] applies. *)
Lemma validateOutput_cases (mcName : string) (oc : OutputConfig) :
  (recognised (ToLower (oc_Func oc)) = true /\
   exists f, validateOutput mcName oc = (bindCalc oc f, []) /\
             forall values, reduce values (bindCalc oc f) = f values) \/
  (recognised (ToLower (oc_Func oc)) = false /\
   validateOutput mcName oc = (oc, [WarnFuncNotAvailable (oc_Func oc) mcName]) /\
   forall values, reduce values oc = 0%float).
Proof.
  unfold validateOutput, reduce, recognised. simpl.
  destruct (String.eqb (ToLower (oc_Func oc)) "sum");
    [left; split; [reflexivity|]; eexists; split; reflexivity|].
  destruct (String.eqb (ToLower (oc_Func oc)) "min");
    [left; split; [reflexivity|]; eexists; split; reflexivity|].
  destruct (String.eqb (ToLower (oc_Func oc)) "max");
    [left; split; [reflexivity|]; eexists; split; reflexivity|].
  destruct (String.eqb (ToLower (oc_Func oc)) "avg");
    [left; split; [reflexivity|]; eexists; split; reflexivity|].
  destruct (String.eqb (ToLower (oc_Func oc)) "average");
    [left; split; [reflexivity|]; eexists; split; reflexivity|].
  destruct (String.eqb (ToLower (oc_Func oc)) "count");
    [left; split; [reflexivity|]; eexists; split; reflexivity|].
  right. repeat split.
Qed.

(** X1.  The two switches agree.  For every output, [validate] keeps its
    [func] and its name; if the lowercased [func] is a reducer name it binds
    a reducer and logs nothing, and the value that [runAggregates] computes
    for the output is that reducer applied to the values; otherwise it binds
    nothing and logs the warning, and [runAggregates] computes 0. *)
Theorem validate_binds_what_aggregation_applies (mcName : string) (oc : OutputConfig)
    (values : list float) :
  let oc' := (validateOutput mcName oc).1 in
  oc_Func oc' = oc_Func oc /\ oc_Name oc' = oc_Name oc /\
  if recognised (ToLower (oc_Func oc))
  then (exists f, oc_calc oc' = Some f /\ reduce values oc' = f values) /\
       (validateOutput mcName oc).2 = []
  else oc_calc oc' = oc_calc oc /\ reduce values oc' = 0%float /\
       (validateOutput mcName oc).2 = [WarnFuncNotAvailable (oc_Func oc) mcName].
Proof.
  cbv zeta.
  destruct (validateOutput_cases mcName oc) as [(-> & f & -> & Hf)|(-> & -> & Hz)]; simpl.
  - repeat split. exists f. split; [reflexivity | apply Hf].
  - repeat split. apply Hz.
Qed.

Lemma validateMetric_logs (mc : MetricConfig) :
  (validateMetric mc).2 = outputWarnings mc.
Proof.
  unfold validateMetric, outputWarnings.
  pose proof (forEach_snd (validateOutput (mc_Name mc)) (mc_Outputs mc)) as Hlogs.
  destruct (forEach (validateOutput (mc_Name mc)) (mc_Outputs mc)) as [outs logs].
  simpl in *. rewrite Hlogs. apply flat_map_ext. intros oc.
  destruct (validateOutput_cases (mc_Name mc) oc) as [(-> & f & -> & _)|(-> & -> & _)];
    reflexivity.
Qed.

Lemma validateAggregate_logs (ag : AggregateDefinition) :
  (validateAggregate ag).2 = flat_map outputWarnings (ad_Metrics ag).
Proof.
  unfold validateAggregate.
  pose proof (forEach_snd validateMetric (ad_Metrics ag)) as Hlogs.
  destruct (forEach validateMetric (ad_Metrics ag)) as [ms logs].
  simpl in *. rewrite Hlogs. apply flat_map_ext. intros mc. apply validateMetric_logs.
Qed.

(** X2.  With an API key, [validate] returns no error and logs exactly: the
    deprecation warning when [probe_only] is present, then one warning for
    each output whose [func] is not a reducer name, in document order; and
    [probe_only], when present, decides [post_probed_metrics] (as its
    negation) whatever the document said for that key. *)
Theorem validate_log_and_probe_only (c : Config) :
  APIKey c <> ""%string ->
  validate c = ((validate c).1.1, expectedWarnings c, None) /\
  PostProbedMetrics (validate c).1.1
    = match ProbeOnly c with
      | Some o => negb o
      | None => PostProbedMetrics c
      end.
Proof.
  intros Hkey. unfold validate, expectedWarnings.
  destruct (String.eqb_spec (APIKey c) ""); [contradiction|].
  pose proof (forEach_snd validateAggregate (Aggregates c)) as Hlogs.
  destruct (forEach validateAggregate (Aggregates c)) as [ags logs]. simpl in Hlogs.
  assert (Hw : logs = flat_map (fun ag => flat_map outputWarnings (ad_Metrics ag))
                               (Aggregates c)).
  { rewrite Hlogs. apply flat_map_ext. intros ag. apply validateAggregate_logs. }
  destruct (ProbeOnly c); simpl; rewrite Hw; split; reflexivity.
Qed.

(** X3.  Validation is idempotent: validating the configuration that
    [validate] leaves changes nothing more, and repeats the same log and the
    same error. *)
Theorem validate_idempotent (c : Config) : validate (validate c).1.1 = validate c.
Proof.
  assert (Hout : forall name oc,
            validateOutput name (validateOutput name oc).1 = validateOutput name oc).
  { intros name oc. unfold validateOutput.
    destruct (String.eqb (ToLower (oc_Func oc)) "sum") eqn:E1; simpl;
      [now rewrite E1|].
    destruct (String.eqb (ToLower (oc_Func oc)) "min") eqn:E2; simpl;
      [now rewrite E1, E2|].
    destruct (String.eqb (ToLower (oc_Func oc)) "max") eqn:E3; simpl;
      [now rewrite E1, E2, E3|].
    destruct (String.eqb (ToLower (oc_Func oc)) "avg") eqn:E4; simpl;
      [now rewrite E1, E2, E3, E4|].
    destruct (String.eqb (ToLower (oc_Func oc)) "average") eqn:E5; simpl;
      [now rewrite E1, E2, E3, E4, E5|].
    destruct (String.eqb (ToLower (oc_Func oc)) "count") eqn:E6; simpl;
      now rewrite E1, E2, E3, E4, E5, E6. }
  assert (Hmet : forall mc, validateMetric (validateMetric mc).1 = validateMetric mc).
  { intros mc. unfold validateMetric.
    pose proof (forEach_idempotent (validateOutput (mc_Name mc)) (mc_Outputs mc)
                  (Hout (mc_Name mc))) as Hi.
    destruct (forEach (validateOutput (mc_Name mc)) (mc_Outputs mc)) as [outs logs].
    simpl in *. now rewrite Hi. }
  assert (Hagg : forall ag, validateAggregate (validateAggregate ag).1 = validateAggregate ag).
  { intros ag. unfold validateAggregate.
    pose proof (forEach_idempotent validateMetric (ad_Metrics ag) Hmet) as Hi.
    destruct (forEach validateMetric (ad_Metrics ag)) as [ms logs].
    simpl in *. now rewrite Hi. }
  unfold validate.
  destruct (String.eqb (APIKey c) "") eqn:Hkey; simpl; [now rewrite Hkey|].
  pose proof (forEach_idempotent validateAggregate (Aggregates c) Hagg) as Hi.
  destruct (ProbeOnly c) as [o|] eqn:Hpo;
    destruct (forEach validateAggregate (Aggregates c)) as [ags logs];
    simpl in *; rewrite Hkey, ?Hpo, Hi; reflexivity.
Qed.

End Validation.

Section ValidationExamples.

#[local] Existing Instance exampleCollaborators.

Lemma validate_log_and_probe_only_witness :
  validate probeOnlyConfig
    = ((validate probeOnlyConfig).1.1,
       [WarnProbeOnlyDeprecated; WarnFuncNotAvailable "Median" "m"], None) /\
  PostProbedMetrics (validate probeOnlyConfig).1.1 = false.
Proof.
  apply (validate_log_and_probe_only probeOnlyConfig). discriminate.
Defined.

End ValidationExamples.

(** ** Loading and reloading *)

Section LoadAndReload.

Context `{Collaborators}.

Lemma validate_APIKey (c : Config) : APIKey (validate c).1.1 = APIKey c.
Proof.
  unfold validate. destruct (String.eqb (APIKey c) ""); [reflexivity|].
  destruct (ProbeOnly c); destruct (forEach validateAggregate (Aggregates c)); reflexivity.
Qed.

(** What a successful [LoadConfig] returns, in terms of the unmarshalled
    document. *)
Lemma LoadConfig_ok (env : Environment) (loc : string) (conf : Config)
    (logs : list LogLine) :
  LoadConfig env loc = (LoadOk conf, logs) ->
  exists b c0,
    fetch env loc = inl b /\
    yaml_Unmarshal env b (initialConfig env loc) = inl c0 /\
    validate (initialize c0) = (conf, logs, None).
Proof.
  unfold LoadConfig.
  destruct (fetch env loc) as [b|e] eqn:Hf; [|discriminate].
  destruct (yaml_Unmarshal env b (initialConfig env loc)) as [c0|e] eqn:Hu; [|discriminate].
  destruct (validate (initialize c0)) as [[c1 logs1] [e|]] eqn:Hv; [discriminate|].
  intros [= <- <-]. now exists b, c0.
Qed.

(** X4.  A configuration that [LoadConfig] returns without error has an API
    key: the loop of [Run] never works with a configuration without one. *)
Theorem loaded_config_has_api_key (env : Environment) (loc : string) (conf : Config)
    (logs : list LogLine) :
  LoadConfig env loc = (LoadOk conf, logs) -> APIKey conf <> ""%string.
Proof.
  intros Hload. apply LoadConfig_ok in Hload as (b & c0 & _ & _ & Hv).
  pose proof (validate_APIKey (initialize c0)) as Hkey. rewrite Hv in Hkey. simpl in Hkey.
  rewrite Hkey. intros Hempty.
  unfold validate in Hv. change (APIKey (initialize c0)) with (APIKey c0) in Hv.
  rewrite Hempty in Hv. simpl in Hv. discriminate.
Qed.

Lemma validateMetric_outputs (mc : MetricConfig) :
  mc_Name (validateMetric mc).1 = mc_Name mc /\
  mc_Outputs (validateMetric mc).1
    = map (fun oc => (validateOutput (mc_Name mc) oc).1) (mc_Outputs mc).
Proof.
  unfold validateMetric.
  pose proof (forEach_fst (validateOutput (mc_Name mc)) (mc_Outputs mc)) as Hfst.
  destruct (forEach (validateOutput (mc_Name mc)) (mc_Outputs mc)). now split.
Qed.

Lemma validateAggregate_metrics (ag : AggregateDefinition) :
  ad_Metrics (validateAggregate ag).1 = map (fun mc => (validateMetric mc).1) (ad_Metrics ag).
Proof.
  unfold validateAggregate.
  pose proof (forEach_fst validateMetric (ad_Metrics ag)) as Hfst.
  destruct (forEach validateMetric (ad_Metrics ag)). assumption.
Qed.

(** In a validated configuration an output with a reducer name has a bound
    reducer. *)
Lemma validated_output_bound (c c' : Config) (logs : list LogLine)
    (ag : AggregateDefinition) (mc : MetricConfig) (oc : OutputConfig) :
  validate c = (c', logs, None) ->
  In ag (Aggregates c') -> In mc (ad_Metrics ag) -> In oc (mc_Outputs mc) ->
  recognised (ToLower (oc_Func oc)) = true ->
  oc_calc oc <> None.
Proof.
  intros Hv Hag Hmc Hoc Hrec.
  apply validate_definitions in Hv as [_ Ha]. rewrite (Ha eq_refl) in Hag.
  apply in_map_iff in Hag as (ag0 & <- & _).
  rewrite validateAggregate_metrics in Hmc. apply in_map_iff in Hmc as (mc0 & <- & _).
  destruct (validateMetric_outputs mc0) as [_ Hout]. rewrite Hout in Hoc.
  apply in_map_iff in Hoc as (oc0 & <- & _).
  destruct (validateOutput_cases (mc_Name mc0) oc0) as [(_ & f & E & _)|(Hno & E & _)];
    rewrite E in *; simpl in *; [discriminate | congruence].
Qed.

(** X5.  Once a configuration with at least one output that names a reducer
    has been loaded, the reload step swaps in every configuration that loads
    without error and logs "config reloaded", whatever that configuration
    is. *)
Theorem known_func_forces_reload (env : Environment) (loc : string) (conf : Config)
    (logs : list LogLine) (ag : AggregateDefinition) (mc : MetricConfig)
    (oc : OutputConfig) :
  LoadConfig env loc = (LoadOk conf, logs) ->
  In ag (Aggregates conf) -> In mc (ad_Metrics ag) -> In oc (mc_Outputs mc) ->
  recognised (ToLower (oc_Func oc)) = true ->
  forall newConf,
    reloadConfig conf (LoadOk newConf)
      = (newConf, [DebugCheckingNewConfig; InfoConfigReloaded; DebugConfigDump]).
Proof.
  intros Hload Hag Hmc Hoc Hrec newConf.
  apply LoadConfig_ok in Hload as (b & c0 & _ & _ & Hv).
  apply (reload_with_bound_reducer conf newConf ag mc oc); trivial.
  now apply (validated_output_bound (initialize c0) conf logs ag mc oc).
Qed.

Lemma DeepEqual_slice_refl {A : Type} (eq : A -> A -> bool) (l : list A) :
  (forall x, In x l -> eq x x = true) -> DeepEqual_slice eq l l = true.
Proof.
  induction l as [|x l IH]; intros Hrefl; simpl; [reflexivity|].
  rewrite Hrefl by now left. apply IH. intros y Hy. apply Hrefl. now right.
Qed.

Lemma DeepEqual_ptr_refl {A : Type} (eq : A -> A -> bool) (p : option A) :
  (forall x, eq x x = true) -> DeepEqual_ptr eq p p = true.
Proof. intros Hrefl. destruct p; simpl; auto. Qed.

(** X6.  When the comparison of the opaque probe configurations is
    reflexive, a configuration is deeply equal to itself if and only if none
    of its outputs has a bound reducer; in that case the reload step keeps
    the current configuration and logs no reload. *)
Theorem identical_reload_kept_iff_unbound (conf : Config) :
  (forall p, Ping_DeepEqual p p = true) ->
  (forall p, TCP_DeepEqual p p = true) ->
  (forall p, HTTP_DeepEqual p p = true) ->
  (forall p, Command_DeepEqual p p = true) ->
  (DeepEqual_Config conf conf = true <-> unbound conf) /\
  (unbound conf -> reloadConfig conf (LoadOk conf) = (conf, [DebugCheckingNewConfig])).
Proof.
  intros Hping Htcp Hhttp Hcmd.
  assert (Hstr : forall l : list string, DeepEqual_slice String.eqb l l = true)
    by (intros l; apply DeepEqual_slice_refl; intros; apply String.eqb_refl).
  assert (Hkeep : unbound conf -> DeepEqual_Config conf conf = true).
  { intros Hun. unfold DeepEqual_Config.
    rewrite !String.eqb_refl, !Bool.eqb_reflx. simpl.
    rewrite (DeepEqual_ptr_refl Bool.eqb) by apply Bool.eqb_reflx.
    rewrite !andb_true_r. apply andb_true_intro. split.
    - apply DeepEqual_slice_refl. intros pd _. unfold DeepEqual_ProbeDefinition.
      now rewrite !String.eqb_refl, !Hstr, !DeepEqual_ptr_refl.
    - apply DeepEqual_slice_refl. intros ag Hag. unfold DeepEqual_AggregateDefinition.
      rewrite !String.eqb_refl, !Hstr. simpl.
      apply DeepEqual_slice_refl. intros mc Hmc. unfold DeepEqual_MetricConfig.
      rewrite String.eqb_refl. simpl.
      apply DeepEqual_slice_refl. intros oc Hoc. unfold DeepEqual_OutputConfig.
      now rewrite !String.eqb_refl, (Hun ag mc oc Hag Hmc Hoc). }
  split; [split; [|exact Hkeep]|].
  - intros Heq ag mc oc Hag Hmc Hoc.
    destruct (oc_calc oc) eqn:Hcalc; [|reflexivity].
    rewrite (DeepEqual_Config_bound conf ag mc oc Hag Hmc Hoc) in Heq; [discriminate|].
    now rewrite Hcalc.
  - intros Hun. unfold reloadConfig. now rewrite (Hkeep Hun).
Qed.

End LoadAndReload.

Section LoadAndReloadExamples.

#[local] Existing Instance exampleCollaborators.

Lemma loaded_config_has_api_key_witness :
  LoadConfig sampleEnvironment "maprobe.yaml" = (LoadOk sampleLoaded, []) /\
  APIKey sampleLoaded <> ""%string.
Proof.
  split; [reflexivity|].
  apply (loaded_config_has_api_key sampleEnvironment "maprobe.yaml" sampleLoaded []).
  reflexivity.
Defined.

Lemma known_func_forces_reload_witness :
  reloadConfig sampleLoaded (LoadOk probesOnlyLoaded)
    = (probesOnlyLoaded, [DebugCheckingNewConfig; InfoConfigReloaded; DebugConfigDump]).
Proof.
  apply (known_func_forces_reload sampleEnvironment "maprobe.yaml" sampleLoaded []
           {| ad_Service := "prod"; ad_Role := "web"; ad_Roles := ["web"];
              ad_Statuses := [];
              ad_Metrics := [
                {| mc_Name := "custom.nginx.requests.requests";
                   mc_Outputs := [
                     {| oc_Func := "sum"; oc_Name := "custom.nginx.requests.sum_requests";
                        oc_calc := Some Reducers.sum |};
                     {| oc_Func := "avg"; oc_Name := "custom.nginx.requests.avg_requests";
                        oc_calc := Some Reducers.avg |} ] |};
                {| mc_Name := "custom.nginx.connections.connections";
                   mc_Outputs := [
                     {| oc_Func := "avg";
                        oc_Name := "custom.nginx.connections.avg_connections";
                        oc_calc := Some Reducers.avg |} ] |} ] |}%string
           {| mc_Name := "custom.nginx.requests.requests";
              mc_Outputs := [
                {| oc_Func := "sum"; oc_Name := "custom.nginx.requests.sum_requests";
                   oc_calc := Some Reducers.sum |};
                {| oc_Func := "avg"; oc_Name := "custom.nginx.requests.avg_requests";
                   oc_calc := Some Reducers.avg |} ] |}%string
           {| oc_Func := "sum"; oc_Name := "custom.nginx.requests.sum_requests";
              oc_calc := Some Reducers.sum |}%string).
  - reflexivity.
  - now left.
  - now left.
  - now left.
  - reflexivity.
Defined.

Lemma identical_reload_kept_iff_unbound_witness :
  (DeepEqual_Config probesOnlyLoaded probesOnlyLoaded = true <-> unbound probesOnlyLoaded) /\
  (unbound probesOnlyLoaded ->
   reloadConfig probesOnlyLoaded (LoadOk probesOnlyLoaded)
     = (probesOnlyLoaded, [DebugCheckingNewConfig])).
Proof.
  apply (identical_reload_kept_iff_unbound probesOnlyLoaded);
    intros p; apply String.eqb_refl.
Defined.

End LoadAndReloadExamples.

(** ** The runners *)

Section RunnerProperties.

Context `{Collaborators}.

Lemma spawnHostTasks_sleep (d : time.Duration) (hosts : list Host) :
  totalSleep (spawnHostTasks d hosts) = Z.of_nat (length hosts) * d /\
  spawned (spawnHostTasks d hosts) = hosts.
Proof.
  induction hosts as [|host rest [IHs IHh]]; [split; reflexivity|].
  cbn [spawnHostTasks totalSleep spawned length]. rewrite IHs, IHh. split; [lia | reflexivity].
Qed.

(** X7.  A probe runner starts one host task for each host that discovery
    returned, in that order (none when discovery fails), and the time it
    sleeps in between adds up to at most half of [ProbeInterval]. *)
Theorem runProbes_sleep_bound (backend : Backend) (pd : ProbeDefinition) :
  spawned (runProbes backend pd)
    = match FindHosts backend {| fh_Service := pd_Service pd; fh_Roles := pd_Roles pd;
                                 fh_Statuses := pd_Statuses pd |} with
      | inl hosts => hosts
      | inr _ => []
      end /\
  0 <= totalSleep (runProbes backend pd) <= ProbeInterval / 2.
Proof.
  assert (Hhalf : 0 <= ProbeInterval / 2) by (unfold ProbeInterval; now vm_compute).
  unfold runProbes.
  destruct (FindHosts backend _) as [hosts|err]; [|split; [reflexivity | simpl; lia]].
  destruct hosts as [|h rest] eqn:Hhosts; [split; [reflexivity | simpl; lia]|].
  rewrite <- Hhosts. assert (Hne : hosts <> []) by (subst; discriminate).
  replace (length hosts =? 0)%nat with false by (subst; reflexivity).
  destruct (spawnHostTasks_sleep (spawnInterval hosts) hosts) as [-> ->].
  split; [reflexivity|].
  rewrite (spawnInterval_min hosts Hne).
  set (n := Z.of_nat (length hosts)).
  assert (Hn : 0 < n) by (subst n hosts; simpl; lia).
  assert (Hp : 0 <= ProbeInterval) by (unfold ProbeInterval; now vm_compute).
  assert (Hq : 0 <= ProbeInterval / (2 * n)) by (apply Z.div_pos; lia).
  assert (Hs : 0 < time.Second) by now vm_compute.
  pose proof (Z.mul_div_le ProbeInterval (2 * n) ltac:(lia)) as Hle.
  split; [nia|].
  apply Z.div_le_lower_bound; [lia|]. nia.
Qed.

(** X8.  On clock seconds and sample times that [time.Unix] takes without
    wrap-around (at most the greatest [int64] minus 62135596800), the
    freshness test only looks at whole seconds: whatever the sub-second part
    of the clock, a sample is accepted if and only if its time is later than
    the clock's second minus 180; a sample exactly 180 seconds old is
    rejected, one 179 seconds old is accepted. *)
Theorem freshness_in_whole_seconds (sec nsec t : Z) :
  0 <= nsec < time.Second ->
  time.minInt64 <= sec <= time.maxInt64 - time.unixToInternal ->
  time.minInt64 <= t <= time.maxInt64 - time.unixToInternal ->
  time.After (time.Unix t 0) (time.Add (time.Unix sec nsec) metricTimeMargin)
    = (sec - 180 <? t).
Proof.
  intros Hns Hsec Ht.
  assert (Hs : 0 < time.Second) by (unfold time.Second, time.Nanosecond; lia).
  rewrite (Unix_in_range t 0), (Unix_in_range sec nsec) by (trivial; lia).
  unfold time.After, time.Add, metricTimeMargin, time.Minute in *.
  unfold time.Second, time.Nanosecond in *.
  destruct (Z.ltb_spec (sec - 180) t); [apply Z.ltb_lt | apply Z.ltb_ge]; lia.
Qed.

(** The accepted samples of a permuted map are a permutation of the
    accepted samples. *)
Lemma accepted_Permutation (now : time.Time) (name : string)
    (latest latest' : LatestMetricValues) :
  Permutation latest latest' ->
  Permutation (accepted now name latest) (accepted now name latest').
Proof.
  unfold accepted, considered.
  induction 1 as [|x l l' _ IH|x y l|l l' l'' _ IH1 _ IH2]; simpl.
  - constructor.
  - rewrite !List.filter_app. now apply Permutation_app_head.
  - rewrite !List.filter_app, !app_assoc. apply Permutation_app_tail, Permutation_app_comm.
  - now transitivity (List.filter (fresh now)
      (flat_map (fun entry : string * gmap string (option MetricValue) =>
                   match entry.2 !! name with
                   | Some (Some s) =>
                       match mv_Value s with
                       | Float64Value _ => [s]
                       | OtherValue => []
                       end
                   | _ => []
                   end) l')).
Qed.

Lemma scanTimestamp_Permutation (samples samples' : list MetricValue) :
  Permutation samples samples' ->
  forall m, scanTimestamp samples m = scanTimestamp samples' m.
Proof.
  unfold scanTimestamp, math.MaxIntegral.
  induction 1 as [|x l l' _ IH|x y l|l l' l'' _ IH1 _ IH2]; intros m; simpl.
  - reflexivity.
  - apply IH.
  - f_equal. lia.
  - now rewrite IH1.
Qed.

(** X9.  The order in which the loop visits the map of latest values does
    not change which samples are accepted, nor the service, name and
    timestamp of the metrics sent: two visiting orders of the same entries
    give the same accepted values up to order and the same stamps. *)
Theorem iteration_order_irrelevant (now : time.Time) (service : string)
    (latest latest' : LatestMetricValues) (mc : MetricConfig) :
  Permutation latest latest' ->
  Permutation (fold_left (scanLatest now (mc_Name mc)) latest (0, [])).2
              (fold_left (scanLatest now (mc_Name mc)) latest' (0, [])).2 /\
  map stamp (aggregateMetric now service latest mc)
    = map stamp (aggregateMetric now service latest' mc).
Proof.
  intros Hperm.
  pose proof (accepted_Permutation now (mc_Name mc) latest latest' Hperm) as Hacc.
  split.
  - rewrite !scan_accepted. simpl. now apply Permutation_map.
  - rewrite !aggregateMetric_accepted.
    destruct (accepted now (mc_Name mc) latest) as [|s rest] eqn:E1;
      destruct (accepted now (mc_Name mc) latest') as [|s' rest'] eqn:E2.
    + reflexivity.
    + apply Permutation_nil in Hacc. discriminate.
    + symmetry in Hacc. apply Permutation_nil in Hacc. discriminate.
    + rewrite !map_map. apply map_ext. intros oc. unfold stamp.
      cbn [sm_Service sm_Name sm_Timestamp].
      now rewrite (scanTimestamp_Permutation _ _ Hacc 0).
Qed.

(** X10.  Whatever an aggregate run sends was asked for: discovery returned
    at least one host, the latest values were fetched for the ids of those
    hosts and the names of the configured metrics, and the metric sent
    carries the service of the definition and the name of an output of a
    metric configuration that has an accepted sample. *)
Theorem runAggregates_sends_configured (backend : Backend) (ag : AggregateDefinition)
    (now : time.Time) (sm : ServiceMetric) :
  In sm (runAggregates backend ag now) ->
  exists hosts latest mc oc,
    FindHosts backend {| fh_Service := ad_Service ag; fh_Roles := ad_Roles ag;
                         fh_Statuses := ad_Statuses ag |} = inl hosts /\
    hosts <> [] /\
    fetchLatestMetricValues backend (map Host_ID hosts) (map mc_Name (ad_Metrics ag))
      = inl latest /\
    In mc (ad_Metrics ag) /\ In oc (mc_Outputs mc) /\
    accepted now (mc_Name mc) latest <> [] /\
    sm_Service sm = ad_Service ag /\ sm_Name sm = oc_Name oc.
Proof.
  unfold runAggregates.
  destruct (FindHosts backend _) as [hosts|err] eqn:Hfind; [|contradiction].
  destruct hosts as [|h rest] eqn:Hhosts; [contradiction|]. rewrite <- Hhosts in *.
  replace (length hosts =? 0)%nat with false by (subst; reflexivity).
  destruct (fetchLatestMetricValues backend _ _) as [latest|err] eqn:Hfetch; [|contradiction].
  intros Hin. apply in_flat_map in Hin as (mc & Hmc & Hin).
  rewrite aggregateMetric_accepted in Hin.
  destruct (accepted now (mc_Name mc) latest) as [|s acc] eqn:Hacc; [contradiction|].
  apply in_map_iff in Hin as (oc & <- & Hoc).
  exists hosts, latest, mc, oc. rewrite Hacc.
  repeat split; trivial; subst; discriminate.
Qed.

End RunnerProperties.

Section RunnerExamples.

#[local] Existing Instance exampleCollaborators.

(** Half a second before the next full second, a sample 180 seconds older
    than the current second is rejected. *)
Lemma freshness_in_whole_seconds_witness :
  time.After (time.Unix 1699999880 0)
             (time.Add (time.Unix 1700000060 500000000) metricTimeMargin)
    = (1700000060 - 180 <? 1699999880).
Proof.
  apply (freshness_in_whole_seconds 1700000060 500000000 1699999880);
    unfold time.Second, time.Nanosecond, time.minInt64, time.maxInt64, time.unixToInternal;
    lia.
Defined.

Lemma iteration_order_irrelevant_witness :
  Permutation (fold_left (scanLatest clock "m") threeHosts (0, [])).2
              (fold_left (scanLatest clock "m") (rev threeHosts) (0, [])).2 /\
  map stamp (aggregateMetric clock "prod" threeHosts sumAndAverage)
    = map stamp (aggregateMetric clock "prod" (rev threeHosts) sumAndAverage).
Proof.
  apply (iteration_order_irrelevant clock "prod" threeHosts (rev threeHosts) sumAndAverage).
  apply Permutation_rev.
Defined.

Lemma runAggregates_sends_configured_witness :
  exists hosts latest mc oc,
    FindHosts (backendOf ["h1"; "h2"; "h3"]%string threeHosts)
      {| fh_Service := ad_Service webAggregate; fh_Roles := ad_Roles webAggregate;
         fh_Statuses := ad_Statuses webAggregate |} = inl hosts /\
    hosts <> [] /\
    fetchLatestMetricValues (backendOf ["h1"; "h2"; "h3"]%string threeHosts)
      (map Host_ID hosts) (map mc_Name (ad_Metrics webAggregate)) = inl latest /\
    In mc (ad_Metrics webAggregate) /\ In oc (mc_Outputs mc) /\
    accepted clock (mc_Name mc) latest <> [] /\
    sm_Service webSum = ad_Service webAggregate /\ sm_Name webSum = oc_Name oc.
Proof.
  apply (runAggregates_sends_configured
           (backendOf ["h1"; "h2"; "h3"]%string threeHosts) webAggregate clock webSum).
  vm_compute. now left.
Defined.

End RunnerExamples.

(** ** The shipper, continued *)

Section ShipperProperties.

Context {M V : Type} (toValue : M -> V).

Lemma delivered_app (a b : list (WorkerAction V)) :
  delivered (a ++ b) = delivered a ++ delivered b.
Proof. unfold delivered. now rewrite posts_app, flat_map_app. Qed.

Lemma actions_loop_cons (mvs : list V) (p : Pass M) (rest : list (Pass M)) :
  actions (workerLoop toValue mvs (p :: rest))
    = (workerPass toValue mvs p).2
      ++ (if (workerPass toValue mvs p).1.2
          then actions (workerLoop toValue (workerPass toValue mvs p).1.1 rest)
          else [WgDone]).
Proof.
  simpl. destruct (workerPass toValue mvs p) as [[mvs' run] acts].
  destruct run; reflexivity.
Qed.

(** X11.  Nothing is lost and nothing is delivered twice while the worker
    runs: at any point, the values of the successful POSTs followed by the
    buffer are exactly the values the worker started with followed by the
    values it received, in order. *)
Theorem shipper_conserves_metrics (passes : list (Pass M)) :
  forall mvs : list V,
    delivered (actions (workerLoop toValue mvs passes))
      ++ buffer (workerLoop toValue mvs passes)
    = mvs ++ flat_map (received toValue) (consumed passes).
Proof.
  induction passes as [|p rest IH]; intros mvs.
  - simpl. now rewrite app_nil_r.
  - rewrite actions_loop_cons, buffer_loop_cons, delivered_app.
    cbn [consumed flat_map].
    destruct (workerPass_cases toValue mvs p) as [E|[E|E]]; rewrite E;
      unfold delivered at 1; simpl; destruct (goesOn p); simpl;
      rewrite ?app_nil_r, <- ?app_assoc, ?IH; simpl;
      rewrite ?app_nil_r, <- ?app_assoc; reflexivity.
Qed.

Lemma workerPass_nonempty (mvs : list V) (p : Pass M) :
  Forall (fun a : list V * bool => a.1 <> []) (posts (workerPass toValue mvs p).2).
Proof.
  unfold workerPass.
  destruct p as [[m| |] ok]; simpl.
  - destruct (length (mvs ++ [toValue m]) <? PostMetricBufferLength)%nat; simpl;
      [constructor|].
    destruct (mvs ++ [toValue m]) eqn:E; [now destruct mvs|].
    simpl. destruct ok; simpl; repeat constructor; discriminate.
  - destruct mvs; simpl; [constructor|].
    destruct ok; simpl; repeat constructor; discriminate.
  - destruct mvs; simpl; [constructor|].
    destruct ok; simpl; repeat constructor; discriminate.
Qed.

Lemma workerPass_within_cap (mvs : list V) (p : Pass M) :
  postOk p = true ->
  (length mvs < PostMetricBufferLength)%nat ->
  (length (workerPass toValue mvs p).1.1 < PostMetricBufferLength)%nat /\
  Forall (fun a : list V * bool => (length a.1 <= PostMetricBufferLength)%nat)
         (posts (workerPass toValue mvs p).2).
Proof.
  assert (Hcap : (0 < PostMetricBufferLength)%nat) by (apply Nat.ltb_lt; reflexivity).
  unfold workerPass.
  destruct p as [[m| |] ok]; simpl; intros -> Hlen.
  - destruct (Nat.ltb_spec (length (mvs ++ [toValue m])) PostMetricBufferLength); simpl;
      [split; [assumption | constructor]|].
    rewrite length_app in *. simpl in *.
    destruct (Nat.eqb_spec (length mvs + 1) 0); simpl; [exfalso; lia|].
    split; [assumption|]. constructor; [|constructor]. cbn [fst]. rewrite length_app. cbn [length]. lia.
  - destruct (Nat.eqb_spec (length mvs) 0); simpl; [split; [lia | constructor]|].
    split; [assumption|]. constructor; [|constructor]. cbn [fst]. lia.
  - destruct (Nat.eqb_spec (length mvs) 0); simpl; [split; [lia | constructor]|].
    split; [assumption|]. constructor; [|constructor]. cbn [fst]. lia.
Qed.

(** X12.  The worker never posts an empty batch; and as long as every POST
    succeeds, a worker that starts below the cap posts batches of at most
    [PostMetricBufferLength] values and keeps its buffer below the cap. *)
Theorem shipper_batch_bounds (passes : list (Pass M)) :
  forall mvs : list V,
    Forall (fun a : list V * bool => a.1 <> [])
           (posts (actions (workerLoop toValue mvs passes))) /\
    (Forall (fun p : Pass M => postOk p = true) passes ->
     (length mvs < PostMetricBufferLength)%nat ->
     Forall (fun a : list V * bool => (length a.1 <= PostMetricBufferLength)%nat)
            (posts (actions (workerLoop toValue mvs passes))) /\
     (length (buffer (workerLoop toValue mvs passes)) < PostMetricBufferLength)%nat).
Proof.
  induction passes as [|p rest IH]; intros mvs.
  - simpl. split; [constructor|]. intros _ Hlen. split; [constructor | assumption].
  - rewrite posts_loop_cons, buffer_loop_cons. split.
    + apply Forall_app. split; [apply workerPass_nonempty|].
      destruct ((workerPass toValue mvs p).1.2); [apply IH | constructor].
    + intros Hok Hlen. inversion Hok as [|? ? Hp Hrest]; subst.
      destruct (workerPass_within_cap mvs p Hp Hlen) as [Hbuf Hposts].
      destruct ((workerPass toValue mvs p).1.2).
      * destruct (IH (workerPass toValue mvs p).1.1) as [_ IHok].
        destruct (IHok Hrest Hbuf) as [IHp IHb].
        split; [apply Forall_app; now split | assumption].
      * split; [apply Forall_app; split; [assumption | constructor] | assumption].
Qed.

Lemma workerPass_run (mvs : list V) (p : Pass M) :
  (workerPass toValue mvs p).1.2 = goesOn p.
Proof. destruct (workerPass_cases toValue mvs p) as [E|[E|E]]; now rewrite E. Qed.

(** X13.  The worker returns exactly when its channel is closed: it has
    returned if and only if some pass selected the closed channel, it never
    looks at what comes after that pass, and [wg.Done] is its last act. *)
Theorem shipper_returns_on_close (passes : list (Pass M)) :
  forall mvs : list V,
    returned (workerLoop toValue mvs passes) = negb (forallb goesOn passes) /\
    workerLoop toValue mvs passes = workerLoop toValue mvs (consumed passes) /\
    (if returned (workerLoop toValue mvs passes)
     then exists acts, actions (workerLoop toValue mvs passes) = acts ++ [WgDone] /\
                       ~ In WgDone acts
     else ~ In WgDone (actions (workerLoop toValue mvs passes))).
Proof.
  assert (Hpass : forall mvs p, ~ In WgDone (workerPass toValue mvs p).2).
  { intros mvs p.
    destruct (workerPass_cases toValue mvs p) as [E|[E|E]]; rewrite E; simpl;
      intuition discriminate. }
  induction passes as [|p rest IH]; intros mvs.
  - simpl. split; [reflexivity|]. split; [reflexivity|]. tauto.
  - pose proof (workerPass_run mvs p) as Hrun. pose proof (Hpass mvs p) as Hp.
    destruct (IH (workerPass toValue mvs p).1.1) as (Hret & Hsame & Hdone).
    cbn [consumed forallb]. destruct (goesOn p) eqn:Hon.
    + assert (Hloop : forall tail,
                workerLoop toValue mvs (p :: tail)
                = {| actions := (workerPass toValue mvs p).2
                                ++ actions (workerLoop toValue (workerPass toValue mvs p).1.1 tail);
                     buffer := buffer (workerLoop toValue (workerPass toValue mvs p).1.1 tail);
                     returned := returned (workerLoop toValue (workerPass toValue mvs p).1.1 tail) |}).
      { intros tail. cbn [workerLoop].
        destruct (workerPass toValue mvs p) as [[mvs' run] acts]. simpl in *. now subst run. }
      rewrite !Hloop. simpl. split; [exact Hret|]. split; [now rewrite <- Hsame|].
      destruct (returned (workerLoop toValue (workerPass toValue mvs p).1.1 rest)).
      * destruct Hdone as (acts0 & -> & Hno).
        exists ((workerPass toValue mvs p).2 ++ acts0). split; [now rewrite app_assoc|].
        intros Hin. apply in_app_or in Hin as [Hin|Hin]; contradiction.
      * intros Hin. apply in_app_or in Hin as [Hin|Hin]; contradiction.
    + assert (Hloop : forall tail,
                workerLoop toValue mvs (p :: tail)
                = {| actions := (workerPass toValue mvs p).2 ++ [WgDone];
                     buffer := (workerPass toValue mvs p).1.1;
                     returned := true |}).
      { intros tail. cbn [workerLoop].
        destruct (workerPass toValue mvs p) as [[mvs' run] acts]. simpl in *. now subst run. }
      rewrite !Hloop. simpl. split; [reflexivity|]. split; [reflexivity|].
      now exists (workerPass toValue mvs p).2.
Qed.

End ShipperProperties.

(** ** The orchestrator *)

Section Orchestrator.

Context `{Collaborators}.

Lemma spawnRunners_no_worker (conf : Config) :
  List.filter isGoWorker (spawnRunners conf) = [].
Proof.
  unfold spawnRunners. rewrite !List.filter_app.
  assert (Hp : forall l, List.filter isGoWorker (map GoRunProbes l) = [])
    by (induction l; simpl; auto).
  assert (Ha : forall l, List.filter isGoWorker (map GoRunAggregates l) = [])
    by (induction l; simpl; auto).
  now rewrite Hp, Ha.
Qed.

Lemma runLoop_no_worker (once : bool) (wakes : list Wake) :
  forall conf, List.filter isGoWorker (runLoop once conf wakes) = [].
Proof.
  assert (Hl : forall lines, List.filter isGoWorker (map Logged lines) = [])
    by (induction lines; simpl; auto).
  induction wakes as [|w rest IH]; intros conf; simpl;
    rewrite List.filter_app, spawnRunners_no_worker; simpl.
  - now destruct once.
  - destruct once; [reflexivity|]. destruct w as [|loaded]; [reflexivity|].
    destruct (reloadConfig conf loaded) as [conf' lines].
    now rewrite List.filter_app, Hl, IH.
Qed.

Lemma filter_nil_not_In {A : Type} (f : A -> bool) (l : list A) (x : A) :
  List.filter f l = [] -> f x = true -> ~ In x l.
Proof.
  intros Hnil Hx Hin.
  assert (Hf : In x (List.filter f l)) by (apply List.filter_In; now split).
  rewrite Hnil in Hf. contradiction.
Qed.

(** X14.  Workers are started from the first configuration only.  Whatever
    the later reloads bring, the workers that [Run] starts are those that
    the configuration loaded at startup calls for; in particular, when that
    configuration has no probes (no aggregates), no host-metric (no
    service-metric) worker is ever started. *)
Theorem workers_started_at_startup_only (conf : Config) (once : bool) (wakes : list Wake) :
  List.filter isGoWorker (Run (LoadOk conf) once wakes) = startWorkers conf /\
  (Probes conf = [] ->
   ~ In GoPostHostMetricWorker (Run (LoadOk conf) once wakes) /\
   ~ In GoDumpHostMetricWorker (Run (LoadOk conf) once wakes)) /\
  (Aggregates conf = [] ->
   ~ In GoPostServiceMetricWorker (Run (LoadOk conf) once wakes) /\
   ~ In GoDumpServiceMetricWorker (Run (LoadOk conf) once wakes)).
Proof.
  assert (Hstart : List.filter isGoWorker (startWorkers conf) = startWorkers conf).
  { unfold startWorkers.
    destruct (0 <? length (Probes conf))%nat, (PostProbedMetrics conf),
      (0 <? length (Aggregates conf))%nat, (PostAggregatedMetrics conf); reflexivity. }
  assert (Hall : List.filter isGoWorker (Run (LoadOk conf) once wakes) = startWorkers conf).
  { unfold Run. now rewrite List.filter_app, runLoop_no_worker, app_nil_r. }
  split; [exact Hall|]. unfold Run in *.
  split; intros Hnone; split; intros Hin;
    apply in_app_or in Hin as [Hin|Hin];
    try (revert Hin; apply (filter_nil_not_In isGoWorker);
         [apply runLoop_no_worker | reflexivity]);
    unfold startWorkers in Hin; rewrite Hnone in Hin; simpl in Hin;
    destruct (0 <? length (Probes conf))%nat, (PostProbedMetrics conf),
      (0 <? length (Aggregates conf))%nat, (PostAggregatedMetrics conf);
    simpl in Hin; intuition discriminate.
Qed.

Lemma reloadConfig_config (conf : Config) (loaded : Loaded) :
  (reloadConfig conf loaded).1 = conf \/ loaded = LoadOk (reloadConfig conf loaded).1.
Proof.
  unfold reloadConfig. destruct loaded as [err|c err|c]; simpl; auto.
  destruct (DeepEqual_Config conf c); simpl; auto.
Qed.

Lemma runLoop_runners (once : bool) (wakes : list Wake) :
  forall conf a,
    In a (runLoop once conf wakes) ->
    match a with
    | GoRunProbes pd => exists c, inUse conf wakes c /\ In pd (Probes c)
    | GoRunAggregates ag => exists c, inUse conf wakes c /\ In ag (Aggregates c)
    | _ => True
    end.
Proof.
  induction wakes as [|w rest IH]; intros conf a Hin; simpl in Hin;
    apply in_app_or in Hin as [Hin|Hin].
  - unfold spawnRunners in Hin.
    apply in_app_or in Hin as [Hin|Hin]; [|apply in_app_or in Hin as [Hin|Hin]].
    + apply in_map_iff in Hin as (pd & <- & Hpd). exists conf. split; [now left | assumption].
    + apply in_map_iff in Hin as (ag & <- & Hag). exists conf. split; [now left | assumption].
    + destruct Hin as [<-|[]]. exact I.
  - destruct once; simpl in Hin; [|contradiction].
    destruct Hin as [<-|[<-|[]]]; exact I.
  - unfold spawnRunners in Hin.
    apply in_app_or in Hin as [Hin|Hin]; [|apply in_app_or in Hin as [Hin|Hin]].
    + apply in_map_iff in Hin as (pd & <- & Hpd). exists conf. split; [now left | assumption].
    + apply in_map_iff in Hin as (ag & <- & Hag). exists conf. split; [now left | assumption].
    + destruct Hin as [<-|[]]. exact I.
  - destruct once; [destruct Hin as [<-|[<-|[]]]; exact I|].
    destruct w as [|loaded]; [destruct Hin as [<-|[<-|[]]]; exact I|].
    pose proof (reloadConfig_config conf loaded) as Hconf.
    destruct (reloadConfig conf loaded) as [conf' lines]. simpl in Hconf.
    apply in_app_or in Hin as [Hin|Hin];
      [apply in_map_iff in Hin as (line & <- & _); exact I|].
    specialize (IH conf' a Hin).
    assert (Hmono : forall c, inUse conf' rest c -> inUse conf (Ticked loaded :: rest) c).
    { intros c [->|Hc]; [|right; now right].
      destruct Hconf as [->| ->]; [now left | right; now left]. }
    destruct a; trivial; destruct IH as (c & Hc & Hd); exists c; auto.
Qed.

(** X15.  [Run] only ever works with a configuration that loaded without
    error: every probe runner and every aggregate runner it starts is for a
    definition of the configuration loaded at startup or of a configuration
    that a later tick loaded successfully; a failed or invalid reload
    contributes nothing. *)
Theorem runners_from_loaded_configs (conf : Config) (once : bool) (wakes : list Wake) :
  (forall pd, In (GoRunProbes pd) (Run (LoadOk conf) once wakes) ->
     exists c, inUse conf wakes c /\ In pd (Probes c)) /\
  (forall ag, In (GoRunAggregates ag) (Run (LoadOk conf) once wakes) ->
     exists c, inUse conf wakes c /\ In ag (Aggregates c)).
Proof.
  assert (Hstart : forall a, In a (startWorkers conf) -> isGoWorker a = true).
  { intros a. unfold startWorkers.
    destruct (0 <? length (Probes conf))%nat, (PostProbedMetrics conf),
      (0 <? length (Aggregates conf))%nat, (PostAggregatedMetrics conf);
      simpl; intuition (subst; reflexivity). }
  unfold Run. split; intros d Hin; apply in_app_or in Hin as [Hin|Hin];
    try (apply Hstart in Hin; discriminate);
    apply (runLoop_runners once wakes conf _ Hin).
Qed.

(** X16.  A host task sends every metric that its probes return, in the
    order in which the probes were generated, also the metrics that come
    with an error: a failing probe only adds a warning.  The task takes the
    semaphore first and gives it back last. *)
Theorem hostTask_sends_all (probeRun : Probe -> list HostMetric * option string)
    (pd : ProbeDefinition) (host : Host) (client : Client) :
  sentByTask (hostTask probeRun pd host client)
    = flat_map (fun probe => (probeRun probe).1) (GenerateProbes pd host client).1 /\
  exists body,
    hostTask probeRun pd host client = Lock :: body ++ [TaskDone; Unlock] /\
    ~ In Lock body /\ ~ In Unlock body.
Proof.
  unfold hostTask. destruct (GenerateProbes pd host client) as [probes logs]. simpl.
  assert (Happ : forall a b, sentByTask (a ++ b) = sentByTask a ++ sentByTask b).
  { induction a as [|[] a IH]; intros b; simpl; rewrite ?IH; reflexivity. }
  assert (Hlogs : sentByTask (map TaskLogged logs) = [])
    by (induction logs; simpl; auto).
  assert (Hprobe : forall probe,
            sentByTask (runProbe probeRun host probe) = (probeRun probe).1).
  { intros probe. unfold runProbe. destruct (probeRun probe) as [metrics [e|]]; simpl;
      induction metrics; simpl; congruence. }
  split.
  - rewrite !Happ, Hlogs. simpl. rewrite app_nil_r.
    induction probes as [|p probes IH]; simpl; [reflexivity|].
    now rewrite Happ, Hprobe, IH.
  - exists (map TaskLogged logs ++ flat_map (runProbe probeRun host) probes).
    split; [now rewrite <- app_assoc|].
    assert (Hbody : forall a,
              In a (map TaskLogged logs ++ flat_map (runProbe probeRun host) probes) ->
              a <> Lock /\ a <> Unlock).
    { intros a Hin. apply in_app_or in Hin as [Hin|Hin].
      - apply in_map_iff in Hin as (line & <- & _). split; discriminate.
      - apply in_flat_map in Hin as (probe & _ & Hin). unfold runProbe in Hin.
        destruct (probeRun probe) as [metrics err].
        apply in_app_or in Hin as [Hin|Hin].
        + destruct err; simpl in Hin; [destruct Hin as [<-|[]]; split; discriminate | contradiction].
        + apply in_map_iff in Hin as (m & <- & _). split; discriminate. }
    split; intros Hin; apply Hbody in Hin; tauto.
Qed.

End Orchestrator.

(** ** The semaphore *)

(** X17.  In every state that the host tasks can reach, the number of tasks
    between [lock] and [unlock] is the number of elements in [sem] and is at
    most [MaxConcurrency]; and a task that is about to [unlock] never
    blocks. *)
Theorem running_tasks_bounded (p : Pool) :
  poolReachable p ->
  running p = sem p /\ 0 <= running p <= MaxConcurrency /\ 0 <= waiting p /\
  (0 < running p ->
   poolStep p {| waiting := waiting p; running := running p - 1; sem := sem p - 1 |}).
Proof.
  intros Hreach.
  assert (Hinv : running p = sem p /\ 0 <= running p <= MaxConcurrency /\ 0 <= waiting p).
  { induction Hreach as [|p q _ IH Hstep].
    - simpl. unfold MaxConcurrency. lia.
    - destruct Hstep; simpl in *; unfold MaxConcurrency in *; lia. }
  destruct Hinv as (Heq & Hrun & Hwait). repeat split; try lia.
  intros Hpos. apply step_unlock; lia.
Qed.

Lemma running_tasks_bounded_witness :
  let p := {| waiting := 0; running := 1; sem := 1 |} in
  running p = sem p /\ 0 <= running p <= MaxConcurrency /\ 0 <= waiting p /\
  (0 < running p ->
   poolStep p {| waiting := waiting p; running := running p - 1; sem := sem p - 1 |}).
Proof.
  apply (running_tasks_bounded {| waiting := 0; running := 1; sem := 1 |}).
  apply (reach_step {| waiting := 1; running := 0; sem := 0 |}).
  - apply (reach_step {| waiting := 0; running := 0; sem := 0 |});
      [apply reach_start | apply (step_go {| waiting := 0; running := 0; sem := 0 |})].
  - apply (step_lock {| waiting := 1; running := 0; sem := 0 |}); simpl;
      unfold MaxConcurrency; lia.
Defined.

(** ** The reducers, for every list

    The comparisons of primitive floats are related to their specification
    on [SpecFloat.spec_float] by the axioms of the Standard Library. *)

Section ReducerProperties.

Import FloatOps SpecFloat.

Local Open Scope float_scope.

Lemma Prim2SF_zero : Prim2SF 0 = S754_zero false.
Proof. reflexivity. Qed.

Lemma Prim2SF_neg_infinity : Prim2SF neg_infinity = S754_infinity true.
Proof. reflexivity. Qed.

Lemma Prim2SF_infinity : Prim2SF infinity = S754_infinity false.
Proof. reflexivity. Qed.

Lemma compare_positive (v : float) :
  (0 <? v) = true ->
  (v =? neg_infinity) = false /\ (v =? v) = true /\ (v =? 0) = false /\ (v <? 0) = false.
Proof.
  rewrite !FloatAxioms.eqb_spec, !FloatAxioms.ltb_spec, Prim2SF_zero, Prim2SF_neg_infinity.
  destruct (Prim2SF v) as [[]|[]| |[] m e]; simpl; try discriminate; intros _;
    unfold SFeqb, SFltb; simpl; rewrite ?Z.compare_refl, ?Pos.compare_cont_refl; auto.
Qed.

Lemma compare_negative (v : float) :
  (v <? 0) = true ->
  (v =? infinity) = false /\ (v =? v) = true /\ (v =? 0) = false /\ (0 <? v) = false.
Proof.
  rewrite !FloatAxioms.eqb_spec, !FloatAxioms.ltb_spec, Prim2SF_zero, Prim2SF_infinity.
  destruct (Prim2SF v) as [[]|[]| |[] m e]; simpl; try discriminate; intros _;
    unfold SFeqb, SFltb; simpl; rewrite ?Z.compare_refl, ?Pos.compare_cont_refl; auto.
Qed.

Lemma Min_positive_zero (v : float) : (0 <? v) = true -> math.Min v 0 = 0.
Proof.
  intros Hv. destruct (compare_positive v Hv) as (H1 & H2 & H3 & H4).
  unfold math.Min, math.IsInf, math.IsNaN. simpl.
  now rewrite H1, H2, H3, H4.
Qed.

Lemma Max_negative_zero (v : float) : (v <? 0) = true -> math.Max v 0 = 0.
Proof.
  intros Hv. destruct (compare_negative v Hv) as (H1 & H2 & H3 & H4).
  unfold math.Max, math.IsInf, math.IsNaN. simpl.
  now rewrite H1, H2, H3, H4.
Qed.

(** X18.  The seed is what comes out: on every list of values that are all
    greater than zero [min] returns 0, and on every list of values that are
    all less than zero [max] returns 0. *)
Theorem zero_seed_is_returned (values : list float) :
  (Forall (fun v => (0 <? v) = true) values -> Reducers.min values = 0) /\
  (Forall (fun v => (v <? 0) = true) values -> Reducers.max values = 0).
Proof.
  unfold Reducers.min, Reducers.max. split; intros Hall.
  - induction Hall as [|v rest Hv _ IH]; simpl; [reflexivity|].
    now rewrite (Min_positive_zero v Hv).
  - induction Hall as [|v rest Hv _ IH]; simpl; [reflexivity|].
    now rewrite (Max_negative_zero v Hv).
Qed.

Lemma eqb_zero_leb (v : float) :
  (v =? 0) = true -> (v <=? 0) = true /\ (0 <=? v) = true.
Proof.
  rewrite !FloatAxioms.eqb_spec, !FloatAxioms.leb_spec, Prim2SF_zero.
  destruct (Prim2SF v) as [[]|[]| |[] m e]; simpl; try discriminate; auto.
Qed.

Lemma ltb_leb_zero (v acc : float) :
  (v <? acc) = true -> (acc <=? 0) = true -> (v <=? 0) = true.
Proof.
  rewrite !FloatAxioms.ltb_spec, !FloatAxioms.leb_spec, Prim2SF_zero.
  destruct (Prim2SF v) as [[]|[]| |[] m e], (Prim2SF acc) as [[]|[]| |[] m' e'];
    simpl; try discriminate; auto.
Qed.

Lemma zero_leb_ltb (v acc : float) :
  (acc <? v) = true -> (0 <=? acc) = true -> (0 <=? v) = true.
Proof.
  rewrite !FloatAxioms.ltb_spec, !FloatAxioms.leb_spec, Prim2SF_zero.
  destruct (Prim2SF v) as [[]|[]| |[] m e], (Prim2SF acc) as [[]|[]| |[] m' e'];
    simpl; try discriminate; auto.
Qed.

Lemma Min_notAboveZero (v acc : float) :
  notAboveZero acc -> notAboveZero (math.Min v acc).
Proof.
  intros Hacc. unfold math.Min.
  destruct (math.IsInf v (-1) || math.IsInf acc (-1)); [right; reflexivity|].
  destruct (math.IsNaN v || math.IsNaN acc) eqn:Hnan; [left; reflexivity|].
  apply orb_false_elim in Hnan as [_ Hnan].
  assert (Hle : (acc <=? 0) = true) by (destruct Hacc; [congruence | assumption]).
  destruct ((v =? 0) && (v =? acc)) eqn:Hz.
  - apply andb_prop in Hz as [Hz _].
    destruct (math.Signbit v); right; [now apply eqb_zero_leb | exact Hle].
  - destruct (v <? acc) eqn:Hlt; right; [now apply (ltb_leb_zero v acc) | exact Hle].
Qed.

Lemma Max_notBelowZero (v acc : float) :
  notBelowZero acc -> notBelowZero (math.Max v acc).
Proof.
  intros Hacc. unfold math.Max.
  destruct (math.IsInf v 1 || math.IsInf acc 1); [right; reflexivity|].
  destruct (math.IsNaN v || math.IsNaN acc) eqn:Hnan; [left; reflexivity|].
  apply orb_false_elim in Hnan as [_ Hnan].
  assert (Hle : (0 <=? acc) = true) by (destruct Hacc; [congruence | assumption]).
  destruct ((v =? 0) && (v =? acc)) eqn:Hz.
  - apply andb_prop in Hz as [Hz _].
    destruct (math.Signbit v); right; [exact Hle | now apply eqb_zero_leb].
  - destruct (acc <? v) eqn:Hlt; right; [now apply (zero_leb_ltb v acc) | exact Hle].
Qed.

(** X19.  Whatever the values, [min] never returns a number above zero and
    [max] never returns a number below zero: each result is NaN or on the
    side of zero that the seed allows. *)
Theorem min_max_bounded_by_seed (values : list float) :
  notAboveZero (Reducers.min values) /\ notBelowZero (Reducers.max values).
Proof.
  unfold Reducers.min, Reducers.max. split.
  - assert (Hgen : forall acc, notAboveZero acc ->
              notAboveZero (fold_left (fun value v => math.Min v value) values acc)).
    { induction values as [|v rest IH]; intros acc Hacc; simpl; [assumption|].
      apply IH. now apply Min_notAboveZero. }
    apply Hgen. right. reflexivity.
  - assert (Hgen : forall acc, notBelowZero acc ->
              notBelowZero (fold_left (fun value v => math.Max v value) values acc)).
    { induction values as [|v rest IH]; intros acc Hacc; simpl; [assumption|].
      apply IH. now apply Max_notBelowZero. }
    apply Hgen. right. reflexivity.
Qed.

End ReducerProperties.
